(** * Merchant experience optimisation suite: the feedback pipeline

    A shallow embedding of the Python sources

      - [ux_principles.py]          (the UX principle catalogue),
      - [model_clients/retry_logic.py] (the retry decorator),
      - [chroma_setup.py]           (the vector-store manager),
      - [test_merchant_feedback.py] (the feedback pipeline),

    followed by the properties of the specification that were checked
    against them, and by further properties of the same code: of the
    retry decorator, the vector-store manager, the steps and the entry
    points of the pipeline, and the prompt context of the catalogue.

    Conventions of the embedding.

    - A Python [str] is a Rocq [string] holding its UTF-8 encoding; all the
      string operations of the sources look for ASCII patterns, for which
      byte offsets and character offsets agree on both sides of a cut.
    - A Python [float] is a primitive binary64 [float]; [int] is [Z].
    - A computation that may raise returns [res A]; code that talks to the
      outside (model back end, vector store, uuid generator, file system)
      runs in the state-and-exception monad [M] over a [World], against an
      environment [Env] of oracles.  Side effects survive an exception.
    - Only the exception classes the sources distinguish are kept; all of
      them derive from [Exception] (asynchronous [BaseException]s such as a
      keyboard interrupt are outside the model).
    - Logging is kept for [logger.warning] records only. *)

From Stdlib Require Import String Ascii List ZArith QArith Qminmax Floats Bool Lia Lqa Arith DecimalString.
Import ListNotations.

Set Warnings "-inexact-float".
Set Implicit Arguments.
Unset Strict Implicit.

Close Scope Q_scope.
#[local] Open Scope string_scope.
#[local] Open Scope list_scope.

(* ===================================================================== *)
(** ** The Python runtime the sources rely on *)
(* ===================================================================== *)

Module Py.

(** *** Exceptions *)

Inductive exn_class : Type :=
| Exception            (* any other subclass of Exception *)
| ValueError
| JSONDecodeError      (* json.JSONDecodeError, a subclass of ValueError *)
| UnboundLocalError
| TypeError
| AttributeError.

Record exn : Type := mkExn { exn_cls : exn_class; exn_msg : string }.

(** [isinstance(e, cls)] for the classes above. *)
Definition isinstance (e : exn) (cls : exn_class) : bool :=
  match cls, exn_cls e with
  | Exception, _ => true
  | ValueError, (ValueError | JSONDecodeError) => true
  | JSONDecodeError, JSONDecodeError => true
  | UnboundLocalError, UnboundLocalError => true
  | TypeError, TypeError => true
  | AttributeError, AttributeError => true
  | _, _ => false
  end.

Inductive res (A : Type) : Type :=
| Ok (a : A)
| Raise (e : exn).
Arguments Ok {A} a.
Arguments Raise {A} e.

Definition is_ok {A} (r : res A) : bool :=
  match r with Ok _ => true | Raise _ => false end.

(** *** Characters *)

Definition chr (n : nat) : ascii := ascii_of_nat n.
Definition str1 (n : nat) : string := String (chr n) EmptyString.

(** The double quote, the line feed and the carriage return. *)
Definition dq : string := str1 34.
Definition nl : string := str1 10.
Definition cr : string := str1 13.

Definition is_digit (c : ascii) : bool :=
  let n := nat_of_ascii c in ((48 <=? n) && (n <=? 57))%nat.

Definition digit_val (c : ascii) : Z := (Z.of_nat (nat_of_ascii c) - 48)%Z.

(** *** Strings *)

Fixpoint string_rev_onto (s acc : string) : string :=
  match s with
  | EmptyString => acc
  | String c s' => string_rev_onto s' (String c acc)
  end.
Definition string_rev (s : string) : string := string_rev_onto s EmptyString.

(** [drop_prefix p s] is [Some r] when [s = p ++ r]. *)
Fixpoint drop_prefix (p s : string) : option string :=
  match p, s with
  | EmptyString, _ => Some s
  | String a p', String b s' =>
      if Ascii.eqb a b then drop_prefix p' s' else None
  | String _ _, EmptyString => None
  end.

Definition startswith (s p : string) : bool :=
  match drop_prefix p s with Some _ => true | None => false end.

Definition endswith (s p : string) : bool :=
  startswith (string_rev s) (string_rev p).

Fixpoint skip (n : nat) (s : string) : string :=
  match n, s with
  | O, _ => s
  | S n', String _ s' => skip n' s'
  | S _, EmptyString => EmptyString
  end.

(** [s[n:]] and [s[:-k]] for non-negative [n] and positive [k]. *)
Definition slice_from (n : nat) (s : string) : string := skip n s.
Definition slice_drop_last (k : nat) (s : string) : string :=
  substring 0 (String.length s - k)%nat s.

(** [s[a:b]] for [0 <= a] and [0 <= b]. *)
Definition slice (a b : Z) (s : string) : string :=
  substring (Z.to_nat a) (Z.to_nat (b - a)%Z) s.

(** [s.find(sub)]: the lowest index of [sub] in [s], or [-1]. *)
Fixpoint find_from (i : Z) (sub s : string) : Z :=
  if startswith s sub then i
  else match s with
       | EmptyString => (-1)%Z
       | String _ s' => find_from (i + 1)%Z sub s'
       end.
Definition find (s sub : string) : Z := find_from 0%Z sub s.

(** [s.rfind(sub)]: the highest index of [sub] in [s], or [-1]. *)
Fixpoint rfind_from (i best : Z) (sub s : string) : Z :=
  let best' := if startswith s sub then i else best in
  match s with
  | EmptyString => best'
  | String _ s' => rfind_from (i + 1)%Z best' sub s'
  end.
Definition rfind (s sub : string) : Z := rfind_from 0%Z (-1)%Z sub s.

(** [sub in s]. *)
Definition contains (sub s : string) : bool := (0 <=? find s sub)%Z.

(** [s.replace(old, new)] for a one-character [old]. *)
Fixpoint replace (old : ascii) (new s : string) : string :=
  match s with
  | EmptyString => EmptyString
  | String c s' =>
      if Ascii.eqb c old then new ++ replace old new s'
      else String c (replace old new s')
  end.

(** [s.split(sep)] for a one-character [sep]. *)
Fixpoint split (sep : ascii) (s : string) : list string :=
  match s with
  | EmptyString => [EmptyString]
  | String c s' =>
      if Ascii.eqb c sep then EmptyString :: split sep s'
      else match split sep s' with
           | h :: t => String c h :: t
           | [] => [String c EmptyString]
           end
  end.

(** The pieces of a formatted text, put together. *)
Definition cat (l : list string) : string :=
  fold_right String.append EmptyString l.

(** [str(n)] for an integer. *)
Definition str_of_int (n : Z) : string :=
  DecimalString.NilZero.string_of_int (Z.to_int n).

(** [sep.join(l)]. *)
Fixpoint join (sep : string) (l : list string) : string :=
  match l with
  | [] => EmptyString
  | [x] => x
  | x :: rest => x ++ sep ++ join sep rest
  end.

(** [s.lower()] on the ASCII letters (the sources only match ASCII
    patterns against the lowered text, and no other character lowers to
    one of the letters of those patterns). *)
Definition lower_char (c : ascii) : ascii :=
  let n := nat_of_ascii c in
  if ((65 <=? n) && (n <=? 90))%nat then ascii_of_nat (n + 32)%nat else c.
Fixpoint lower (s : string) : string :=
  match s with
  | EmptyString => EmptyString
  | String c s' => String (lower_char c) (lower s')
  end.

(** The characters [str.isspace] accepts, in UTF-8: U+0009..U+000D,
    U+001C..U+0020, U+0085, U+00A0, U+1680, U+2000..U+200A, U+2028,
    U+2029, U+202F, U+205F and U+3000. *)
Definition bytes (l : list nat) : string :=
  fold_right (fun n s => String (chr n) s) EmptyString l.

Definition whitespace : list string :=
  map bytes
    ([ [9]; [10]; [11]; [12]; [13]; [28]; [29]; [30]; [31]; [32];
       [194; 133]; [194; 160]; [225; 154; 128] ]
     ++ map (fun k => [226; 128; 128 + k])%nat (seq 0 11)
     ++ [ [226; 128; 168]; [226; 128; 169]; [226; 128; 175];
          [226; 129; 159]; [227; 128; 128] ]).

Fixpoint drop_any (ps : list string) (s : string) : option string :=
  match ps with
  | [] => None
  | p :: ps' =>
      match drop_prefix p s with
      | Some r => Some r
      | None => drop_any ps' s
      end
  end.

Fixpoint lstrip_with (ps : list string) (fuel : nat) (s : string) : string :=
  match fuel with
  | O => s
  | S fuel' =>
      match drop_any ps s with
      | Some r => lstrip_with ps fuel' r
      | None => s
      end
  end.

Definition lstrip (s : string) : string :=
  lstrip_with whitespace (String.length s) s.
Definition rstrip (s : string) : string :=
  string_rev (lstrip_with (map string_rev whitespace) (String.length s)
                (string_rev s)).
(** [s.strip()]. *)
Definition strip (s : string) : string := rstrip (lstrip s).

(** Truth value of a string: non-empty. *)
Definition truthy (s : string) : bool :=
  match s with EmptyString => false | String _ _ => true end.

(** [int(ds)] for a run of ASCII digits. *)
Fixpoint int_of_digits_acc (acc : Z) (ds : string) : Z :=
  match ds with
  | EmptyString => acc
  | String c ds' => int_of_digits_acc (10 * acc + digit_val c)%Z ds'
  end.
Definition int_of_digits (ds : string) : Z := int_of_digits_acc 0%Z ds.

(** The longest prefix of digits and what follows it. *)
Fixpoint span_digits (s : string) : string * string :=
  match s with
  | String c s' =>
      if is_digit c then let (ds, r) := span_digits s' in (String c ds, r)
      else (EmptyString, s)
  | EmptyString => (EmptyString, EmptyString)
  end.

(** [max(a, b)] and [min(a, b)] of two floats: the first argument is kept
    unless the second is strictly greater (smaller). *)
Definition max (a b : float) : float := if PrimFloat.ltb a b then b else a.
Definition min (a b : float) : float := if PrimFloat.ltb b a then b else a.



(** The bytes that continue a character in UTF-8. *)
Definition is_continuation (c : ascii) : bool :=
  let n := nat_of_ascii c in ((128 <=? n) && (n <=? 191))%nat.

(** [len(s)]: the number of characters. *)
Fixpoint len (s : string) : Z :=
  match s with
  | EmptyString => 0%Z
  | String c s' => ((if is_continuation c then 0 else 1) + len s')%Z
  end.


(** *** Unicode decimal digits *)

(** The six payload bits of a byte that continues a character. *)
Definition payload (c : ascii) : N := N.land (N_of_ascii c) 63.

(** The code point that the UTF-8 sequence at the head of [s] encodes,
    and what follows it. *)
Definition code_point_head (s : string) : option (N * string) :=
  match s with
  | EmptyString => None
  | String a r =>
      let b := N_of_ascii a in
      if (b <? 128)%N then Some (b, r)
      else if (b <? 192)%N then None
      else if (b <? 224)%N then
        match r with
        | String c1 r1 => Some (((b - 192) * 64 + payload c1)%N, r1)
        | _ => None
        end
      else if (b <? 240)%N then
        match r with
        | String c1 (String c2 r2) =>
            Some ((((b - 224) * 64 + payload c1) * 64 + payload c2)%N, r2)
        | _ => None
        end
      else
        match r with
        | String c1 (String c2 (String c3 r3)) =>
            Some (((((b - 240) * 64 + payload c1) * 64 + payload c2) * 64
                   + payload c3)%N, r3)
        | _ => None
        end
  end.

(** The decimal digits of Unicode 14, the version of Python 3.11
    (general category Nd): the code point of each zero, which its digits
    one to nine follow.  These are the characters that [\d] matches in
    a [str] pattern of [re] and that [int] reads. *)
Definition decimal_zeros : list N :=
  ([ 48; 1632; 1776; 1984; 2406; 2534; 2662; 2790;
     2918; 3046; 3174; 3302; 3430; 3558; 3664; 3792;
     3872; 4160; 4240; 6112; 6160; 6470; 6608; 6784;
     6800; 6992; 7088; 7232; 7248; 42528; 43216; 43264;
     43472; 43504; 43600; 44016; 65296; 66720; 68912; 69734;
     69872; 69942; 70096; 70384; 70736; 70864; 71248; 71360;
     71472; 71904; 72016; 72784; 73040; 73120; 92768; 92864;
     93008; 120782; 120792; 120802; 120812; 120822; 123200; 123632;
     125264; 130032 ])%N.

Definition decimal_value (cp : N) : option N :=
  match List.find (fun z => (z <=? cp)%N && (cp <=? z + 9)%N)
          decimal_zeros with
  | Some z => Some (cp - z)%N
  | None => None
  end.

(** The value of the decimal digit at the head of [s], and what follows
    it. *)
Definition decimal_head (s : string) : option (N * string) :=
  match code_point_head s with
  | Some (cp, r) =>
      match decimal_value cp with
      | Some d => Some (d, r)
      | None => None
      end
  | None => None
  end.

(** The values of the longest run of decimal digits at the head of [s],
    and what follows the run. *)
Fixpoint span_decimals_upto (fuel : nat) (s : string)
  : list N * string :=
  match fuel with
  | O => ([], s)
  | S fuel' =>
      match decimal_head s with
      | Some (d, r) =>
          let (ds, r') := span_decimals_upto fuel' r in (d :: ds, r')
      | None => ([], s)
      end
  end.
Definition span_decimals (s : string) : list N * string :=
  span_decimals_upto (String.length s) s.

(** [int(ds)] for a run of decimal digits. *)
Definition int_of_decimals (ds : list N) : Z :=
  fold_left (fun acc d => (10 * acc + Z.of_N d)%Z) ds 0%Z.

End Py.
(** *** [float(s)] *)

Module PyFloat.

#[local] Open Scope Z_scope.

(** Underscores of a numeric literal: each one stands between two
    digits, and is dropped.  [prev] tells whether the character before
    was a digit. *)
Fixpoint strip_underscores (prev : bool) (s : string) : option string :=
  match s with
  | EmptyString => Some EmptyString
  | String c s' =>
      if Ascii.eqb c "_"%char then
        match s' with
        | String d _ =>
            if prev && Py.is_digit d then strip_underscores false s'
            else None
        | EmptyString => None
        end
      else
        match strip_underscores (Py.is_digit c) s' with
        | Some r => Some (String c r)
        | None => None
        end
  end.

(** An optional sign: [true] for minus. *)
Definition split_sign (s : string) : bool * string :=
  match s with
  | String "-"%char s' => (true, s')
  | String "+"%char s' => (false, s')
  | _ => (false, s)
  end.

(** The exponent part: empty, or [e] or [E], an optional sign and at
    least one digit, up to the end of the text. *)
Definition exponent (s : string) : option Z :=
  match s with
  | EmptyString => Some 0
  | String c s' =>
      if Ascii.eqb c "e"%char || Ascii.eqb c "E"%char then
        let (neg, ds) := split_sign s' in
        let (d, r) := Py.span_digits ds in
        match d, r with
        | String _ _, EmptyString =>
            Some (if neg then - Py.int_of_digits d else Py.int_of_digits d)
        | _, _ => None
        end
      else None
  end.

(** A decimal literal [digits [. [digits]] [exponent]] or
    [. digits [exponent]], as mantissa [m] and decimal exponent [e]: the
    value is [m * 10 ^ e]. *)
Definition decimal (s : string) : option (Z * Z) :=
  let (ip, r) := Py.span_digits s in
  let '(fp, r') :=
    match r with
    | String "."%char r1 => Py.span_digits r1
    | _ => (EmptyString, r)
    end in
  if Py.truthy ip || Py.truthy fp then
    match exponent r' with
    | Some e =>
        Some (Py.int_of_digits (ip ++ fp), e - Z.of_nat (String.length fp))
    | None => None
    end
  else None.

(** The binary64 number nearest to [m * 10 ^ e] (ties to even), for
    [m > 0].  Beyond the cut-offs the result no longer depends on the
    digits: [m * 10 ^ e >= 10 ^ 400] overflows, and
    [m * 10 ^ e < 10 ^ (-400)] rounds to zero. *)
Definition round_decimal (neg : bool) (m : positive) (e : Z) : spec_float :=
  if 400 <=? e then S754_infinity neg
  else if e + Z.log2 (Zpos m) <? -1400 then S754_zero neg
  else if 0 <=? e then
    binary_normalize prec emax
      ((if neg then Zneg m else Zpos m) * 10 ^ e) 0 neg
  else
    SFdiv prec emax
      (S754_finite neg m 0)
      (S754_finite false (Z.to_pos (10 ^ (- e))) 0).

(** The float denoted by sign, mantissa and decimal exponent. *)
Definition float_of_decimal (neg : bool) (m e : Z) : float :=
  match m with
  | Zpos p => SF2Prim (round_decimal neg p e)
  | _ => if neg then neg_zero else zero
  end.

(** [float(s)]: [None] stands for [ValueError]. *)
Definition float_of_string (s : string) : option float :=
  match strip_underscores false (Py.strip s) with
  | None => None
  | Some t =>
      let (neg, body) := split_sign t in
      let l := Py.lower body in
      if String.eqb l "inf" || String.eqb l "infinity" then
        Some (if neg then neg_infinity else infinity)
      else if String.eqb l "nan" then Some nan
      else
        match decimal body with
        | Some (m, e) => Some (float_of_decimal neg m e)
        | None => None
        end
  end.

End PyFloat.

(** *** [json.loads] *)

(** The decoder of the standard library (CPython's scanner, default
    settings: strict strings, [NaN] and [Infinity] accepted).  Every
    failure is a [json.JSONDecodeError]; the interpreter's recursion limit
    and its limit on the number of digits of an integer are not
    modelled. *)
Module json.

#[local] Unset Elimination Schemes.
Inductive value : Type :=
| Null
| Bool (b : bool)
| Int (n : Z)
| Float (f : float)
| Str (s : string)
| List (l : list value)
| Dict (d : list (string * value)).
#[local] Set Elimination Schemes.

(** [d[k] = v] on a dictionary kept in insertion order. *)
Fixpoint dict_set (d : list (string * value)) (k : string) (v : value)
  : list (string * value) :=
  match d with
  | [] => [(k, v)]
  | (k', v') :: d' =>
      if String.eqb k' k then (k', v) :: d' else (k', v') :: dict_set d' k v
  end.

(** [d.get(k)]. *)
Fixpoint dict_get (d : list (string * value)) (k : string) : option value :=
  match d with
  | [] => None
  | (k', v) :: d' => if String.eqb k' k then Some v else dict_get d' k
  end.

(** [list(v.keys())] of a dictionary; no keys for another value. *)
Definition keys (v : value) : list string :=
  match v with
  | Dict d => map fst d
  | _ => []
  end.

Definition is_ws (c : ascii) : bool :=
  let n := nat_of_ascii c in
  (Nat.eqb n 32 || Nat.eqb n 9 || Nat.eqb n 10 || Nat.eqb n 13).

Fixpoint skip_ws (s : string) : string :=
  match s with
  | String c s' => if is_ws c then skip_ws s' else s
  | EmptyString => s
  end.

#[local] Open Scope Z_scope.

Definition hex_val (c : ascii) : option Z :=
  let n := Z.of_nat (nat_of_ascii c) in
  if (48 <=? n) && (n <=? 57) then Some (n - 48)
  else if (97 <=? n) && (n <=? 102) then Some (n - 87)
  else if (65 <=? n) && (n <=? 70) then Some (n - 55)
  else None.

(** Four hexadecimal digits and what follows them. *)
Definition hex4 (s : string) : option (Z * string) :=
  match s with
  | String a (String b (String c (String d r))) =>
      match hex_val a, hex_val b, hex_val c, hex_val d with
      | Some x, Some y, Some z, Some w =>
          Some (((x * 16 + y) * 16 + z) * 16 + w, r)
      | _, _, _, _ => None
      end
  | _ => None
  end.

Definition byte (n : Z) : ascii := ascii_of_nat (Z.to_nat n).

(** The UTF-8 encoding of a code point (a lone surrogate is encoded like
    any other three-byte code point). *)
Definition utf8 (c : Z) : string :=
  if c <? 128 then String (byte c) EmptyString
  else if c <? 2048 then
    String (byte (192 + c / 64)) (String (byte (128 + c mod 64)) EmptyString)
  else if c <? 65536 then
    String (byte (224 + c / 4096))
      (String (byte (128 + (c / 64) mod 64))
         (String (byte (128 + c mod 64)) EmptyString))
  else
    String (byte (240 + c / 262144))
      (String (byte (128 + (c / 4096) mod 64))
         (String (byte (128 + (c / 64) mod 64))
            (String (byte (128 + c mod 64)) EmptyString))).

Definition is_high_surrogate (c : Z) : bool := (55296 <=? c) && (c <=? 56319).
Definition is_low_surrogate (c : Z) : bool := (56320 <=? c) && (c <=? 57343).

(** A [\uXXXX] escape, from its first hexadecimal digit on: the code
    point and the text after the escape.  The escape must not end the
    text, and a high surrogate joins a low surrogate escape that follows
    it. *)
Definition unicode_escape (s : string) : option (Z * string) :=
  match hex4 s with
  | Some (c, String x r) =>
      let rest := String x r in
      if is_high_surrogate c && (6 <? Z.of_nat (String.length rest)) then
        match rest with
        | String "\"%char (String "u"%char r2) =>
            match hex4 r2 with
            | Some (c2, r3) =>
                if is_low_surrogate c2
                then Some (65536 + (c - 55296) * 1024 + (c2 - 56320), r3)
                else Some (c, rest)
            | None => None
            end
        | _ => Some (c, rest)
        end
      else Some (c, rest)
  | _ => None
  end.

(** The body of a string, after the opening quote: its content and the
    text after the closing quote. *)
Fixpoint scanstring (fuel : nat) (s : string) : option (string * string) :=
  match fuel with
  | O => None
  | S fuel' =>
      match s with
      | EmptyString => None
      | String c s' =>
          if Ascii.eqb c (Py.chr 34) then Some (EmptyString, s')
          else if Ascii.eqb c "\"%char then
            match s' with
            | EmptyString => None
            | String e s'' =>
                let simple (x : nat) :=
                  match scanstring fuel' s'' with
                  | Some (t, r) => Some (String (Py.chr x) t, r)
                  | None => None
                  end in
                if Ascii.eqb e "u"%char then
                  match unicode_escape s'' with
                  | Some (cp, r) =>
                      match scanstring fuel' r with
                      | Some (t, r') => Some ((utf8 cp ++ t)%string, r')
                      | None => None
                      end
                  | None => None
                  end
                else if Ascii.eqb e (Py.chr 34) then simple 34%nat
                else if Ascii.eqb e "\"%char then simple 92%nat
                else if Ascii.eqb e "/"%char then simple 47%nat
                else if Ascii.eqb e "b"%char then simple 8%nat
                else if Ascii.eqb e "f"%char then simple 12%nat
                else if Ascii.eqb e "n"%char then simple 10%nat
                else if Ascii.eqb e "r"%char then simple 13%nat
                else if Ascii.eqb e "t"%char then simple 9%nat
                else None
            end
          else if (nat_of_ascii c <=? 31)%nat then None
          else
            match scanstring fuel' s' with
            | Some (t, r) => Some (String c t, r)
            | None => None
            end
      end
  end.

(** A number at the head of the text. *)
Definition match_number (s : string) : option (value * string) :=
  let (neg, s1) :=
    match s with
    | String "-"%char r => (true, r)
    | _ => (false, s)
    end in
  let int_part :=
    match s1 with
    | String "0"%char r => Some ("0"%string, r)
    | String c _ =>
        if Py.is_digit c then Some (Py.span_digits s1) else None
    | EmptyString => None
    end in
  match int_part with
  | None => None
  | Some (ip, s2) =>
      let '(fp, s3) :=
        match s2 with
        | String "."%char (String d r) =>
            if Py.is_digit d then Py.span_digits (String d r)
            else (EmptyString, s2)
        | _ => (EmptyString, s2)
        end in
      let '(ex, s4) :=
        match s3 with
        | String c r =>
            if Ascii.eqb c "e"%char || Ascii.eqb c "E"%char then
              let (eneg, r1) :=
                match r with
                | String "-"%char r' => (true, r')
                | String "+"%char r' => (false, r')
                | _ => (false, r)
                end in
              let (ds, r2) := Py.span_digits r1 in
              if Py.truthy ds
              then (Some (if eneg then - Py.int_of_digits ds
                          else Py.int_of_digits ds), r2)
              else (None, s3)
            else (None, s3)
        | EmptyString => (None, s3)
        end in
      match fp, ex with
      | EmptyString, None =>
          let n := Py.int_of_digits ip in
          Some (Int (if neg then - n else n), s4)
      | _, _ =>
          let e := match ex with Some e => e | None => 0 end in
          Some (Float (PyFloat.float_of_decimal neg
                         (Py.int_of_digits (ip ++ fp))
                         (e - Z.of_nat (String.length fp))), s4)
      end
  end.

(** [scan_once]: one value at the head of the text and what follows
    it; the members of an object after its brace or a comma; the items
    of an array likewise. *)
Fixpoint scan_once (fuel : nat) (s : string) {struct fuel}
  : option (value * string) :=
  match fuel with
  | O => None
  | S fuel' =>
      match s with
      | EmptyString => None
      | String c s' =>
          if Ascii.eqb c (Py.chr 34) then
            match scanstring (String.length s) s' with
            | Some (t, r) => Some (Str t, r)
            | None => None
            end
          else if Ascii.eqb c "{"%char then
            match skip_ws s' with
            | String "}"%char r => Some (Dict [], r)
            | s1 => object_members fuel' [] s1
            end
          else if Ascii.eqb c "["%char then
            match skip_ws s' with
            | String "]"%char r => Some (List [], r)
            | s1 => array_items fuel' [] s1
            end
          else
            match Py.drop_prefix "null" s, Py.drop_prefix "true" s,
                  Py.drop_prefix "false" s, Py.drop_prefix "NaN" s,
                  Py.drop_prefix "Infinity" s, Py.drop_prefix "-Infinity" s
            with
            | Some r, _, _, _, _, _ => Some (Null, r)
            | _, Some r, _, _, _, _ => Some (Bool true, r)
            | _, _, Some r, _, _, _ => Some (Bool false, r)
            | _, _, _, Some r, _, _ => Some (Float nan, r)
            | _, _, _, _, Some r, _ => Some (Float infinity, r)
            | _, _, _, _, _, Some r => Some (Float neg_infinity, r)
            | _, _, _, _, _, _ => match_number s
            end
      end
  end
with object_members (fuel : nat) (acc : list (string * value)) (s : string)
     {struct fuel} : option (value * string) :=
  match fuel with
  | O => None
  | S fuel' =>
      match s with
      | String q s1 =>
          if Ascii.eqb q (Py.chr 34) then
            match scanstring (String.length s) s1 with
            | Some (k, s2) =>
                match skip_ws s2 with
                | String ":"%char s3 =>
                    match scan_once fuel' (skip_ws s3) with
                    | Some (v, s4) =>
                        let acc' := dict_set acc k v in
                        match skip_ws s4 with
                        | String "}"%char r => Some (Dict acc', r)
                        | String ","%char r =>
                            object_members fuel' acc' (skip_ws r)
                        | _ => None
                        end
                    | None => None
                    end
                | _ => None
                end
            | None => None
            end
          else None
      | EmptyString => None
      end
  end
with array_items (fuel : nat) (acc : list value) (s : string)
     {struct fuel} : option (value * string) :=
  match fuel with
  | O => None
  | S fuel' =>
      match scan_once fuel' s with
      | Some (v, s1) =>
          match skip_ws s1 with
          | String "]"%char r => Some (List (acc ++ [v]), r)
          | String ","%char r => array_items fuel' (acc ++ [v]) (skip_ws r)
          | _ => None
          end
      | None => None
      end
  end.

Definition decode_error : Py.exn :=
  Py.mkExn Py.JSONDecodeError "Expecting value".

(** [json.loads(s)] for a [str] argument. *)
Definition loads (s : string) : Py.res value :=
  if Py.startswith s (Py.bytes [239; 187; 191]%nat) then Py.Raise decode_error
  else
    match scan_once (2 * String.length s + 2) (skip_ws s) with
    | Some (v, r) =>
        match skip_ws r with
        | EmptyString => Py.Ok v
        | String _ _ => Py.Raise decode_error
        end
    | None => Py.Raise decode_error
    end.

(** The name of the type of a decoded value. *)
Definition type_name (v : value) : string :=
  match v with
  | Null => "NoneType"
  | Bool _ => "bool"
  | Int _ => "int"
  | Float _ => "float"
  | Str _ => "str"
  | List _ => "list"
  | Dict _ => "dict"
  end.

(** Truth value, [len(v)] and [v[0]] of a decoded value. *)
Definition truthy (v : value) : bool :=
  match v with
  | Null => false
  | Bool b => b
  | Int n => negb (Z.eqb n 0)
  | Float f => negb (PrimFloat.eqb f 0%float)
  | Str s => Py.truthy s
  | List l => match l with [] => false | _ => true end
  | Dict d => match d with [] => false | _ => true end
  end.

Definition len (v : value) : Py.res Z :=
  match v with
  | Str s => Py.Ok (Py.len s)
  | List l => Py.Ok (Z.of_nat (length l))
  | Dict d => Py.Ok (Z.of_nat (length d))
  | _ =>
      Py.Raise (Py.mkExn Py.TypeError
                  (Py.cat [ "object of type '"; type_name v;
                            "' has no len()" ]))
  end.


End json.
(* ===================================================================== *)
(** ** ux_principles.py *)
(* ===================================================================== *)

Module ux_principles.

Inductive FlowType : Type :=
| CHECKOUT | PAYMENT | ONBOARDING | DASHBOARD | ANALYTICS | GENERAL
| ETHICAL | VISUAL | PRICING | CONTENT | GAMIFICATION | CART.

(** [FlowType.value]. *)
Definition value (f : FlowType) : string :=
  match f with
  | CHECKOUT => "checkout"
  | PAYMENT => "payment"
  | ONBOARDING => "onboarding"
  | DASHBOARD => "dashboard"
  | ANALYTICS => "analytics"
  | GENERAL => "general"
  | ETHICAL => "ethical"
  | VISUAL => "visual"
  | PRICING => "pricing"
  | CONTENT => "content"
  | GAMIFICATION => "gamification"
  | CART => "cart"
  end.

Definition FlowType_eqb (a b : FlowType) : bool :=
  match a, b with
  | CHECKOUT, CHECKOUT | PAYMENT, PAYMENT | ONBOARDING, ONBOARDING
  | DASHBOARD, DASHBOARD | ANALYTICS, ANALYTICS | GENERAL, GENERAL
  | ETHICAL, ETHICAL | VISUAL, VISUAL | PRICING, PRICING
  | CONTENT, CONTENT | GAMIFICATION, GAMIFICATION | CART, CART => true
  | _, _ => false
  end.

Record UXPrinciple : Type := mkUXPrinciple {
  name : string;
  description : string;
  source : string;
  category : string;
  priority : Z      (* 1-5, 5 being highest priority *)
}.

#[local] Open Scope Z_scope.

Definition GENERAL_principles : list UXPrinciple :=
  [ mkUXPrinciple "Aesthetic-Usability Effect"
      "Users often perceive aesthetically pleasing design as design that's more usable"
      "Laws of UX" "Perception" 5
  ; mkUXPrinciple "Choice Overload"
      "The tendency for people to get overwhelmed when presented with too many options"
      "Laws of UX" "Decision Making" 5
  ; mkUXPrinciple "Chunking"
      "Breaking down information into meaningful groups to improve comprehension"
      "Laws of UX" "Information Architecture" 5
  ; mkUXPrinciple "Cognitive Load"
      "Minimize the mental resources needed to understand and interact with an interface"
      "Laws of UX" "Performance" 5
  ; mkUXPrinciple "Doherty Threshold"
      "Maintain system response times under 400ms for optimal productivity"
      "Laws of UX" "Performance" 5
  ; mkUXPrinciple "Fitts's Law"
      "Make interactive elements large enough and close enough to be easily acquired"
      "Laws of UX" "Interaction Design" 5
  ; mkUXPrinciple "Hick's Law"
      "Reduce the number and complexity of choices to speed up decision making"
      "Laws of UX" "Decision Making" 5
  ; mkUXPrinciple "Jakob's Law"
      "Follow established design patterns that users are familiar with"
      "Laws of UX" "Consistency" 5
  ; mkUXPrinciple "Law of Common Region"
      "Group related elements within clearly defined boundaries"
      "Laws of UX" "Visual Design" 4
  ; mkUXPrinciple "Law of Proximity"
      "Place related elements close to each other"
      "Laws of UX" "Visual Design" 4
  ; mkUXPrinciple "Law of Prägnanz"
      "Use simple, clear visual forms that require minimal cognitive effort"
      "Laws of UX" "Visual Design" 4
  ; mkUXPrinciple "Law of Similarity"
      "Use consistent visual styles for related elements"
      "Laws of UX" "Visual Design" 4
  ; mkUXPrinciple "Miller's Law"
      "Limit the number of items in working memory to 7±2"
      "Laws of UX" "Information Architecture" 5
  ; mkUXPrinciple "Occam's Razor"
      "Choose the simplest solution that works"
      "Laws of UX" "Design Philosophy" 5
  ; mkUXPrinciple "Paradox of the Active User"
      "Design for immediate use without requiring extensive learning"
      "Laws of UX" "Usability" 5
  ; mkUXPrinciple "Peak-End Rule"
      "Focus on creating positive peak and ending experiences"
      "Laws of UX" "User Experience" 5
  ; mkUXPrinciple "Postel's Law"
      "Be flexible with input but strict with output"
      "Laws of UX" "Error Handling" 4
  ; mkUXPrinciple "Serial Position Effect"
      "Place important information at the beginning and end of lists"
      "Laws of UX" "Information Architecture" 4
  ; mkUXPrinciple "Tesler's Law"
      "Some complexity is inherent and cannot be eliminated"
      "Laws of UX" "Design Philosophy" 4
  ; mkUXPrinciple "Von Restorff Effect"
      "Make important elements visually distinct"
      "Laws of UX" "Visual Design" 4
  ; mkUXPrinciple "Zeigarnik Effect"
      "Show progress for incomplete tasks to improve recall"
      "Laws of UX" "Task Management" 4 ].

Definition CHECKOUT_principles : list UXPrinciple :=
  [ mkUXPrinciple "One-Click Checkout"
      "Enable quick purchase completion with pre-filled information"
      "Stripe" "Efficiency" 5
  ; mkUXPrinciple "Progress Indicators"
      "Show clear progress through checkout steps with visual indicators"
      "Stripe" "Navigation" 5
  ; mkUXPrinciple "Early Fee Disclosure"
      "Display all costs (taxes, fees, shipping) at the beginning of checkout"
      "Stripe" "Transparency" 5
  ; mkUXPrinciple "Smart Form Filling"
      "Support autofill and address validation to minimize input errors"
      "Stripe" "Efficiency" 4
  ; mkUXPrinciple "Guest Checkout"
      "Allow purchase completion without account creation"
      "Stripe" "Accessibility" 5
  ; mkUXPrinciple "Mobile Optimization"
      "Ensure fully responsive and touch-friendly checkout interface"
      "Stripe" "Responsiveness" 5
  ; mkUXPrinciple "Minimal Distractions"
      "Remove unnecessary elements during checkout to maintain focus"
      "Stripe" "Focus" 4
  ; mkUXPrinciple "Brand Consistency"
      "Maintain brand identity throughout checkout for trust"
      "Stripe" "Trust" 4
  ; mkUXPrinciple "Multiple Payment Options"
      "Support various payment methods including local options"
      "Stripe" "Flexibility" 5
  ; mkUXPrinciple "Security Indicators"
      "Display trust badges and security certifications prominently"
      "Stripe" "Trust" 5
  ; mkUXPrinciple "Error Prevention"
      "Implement real-time validation and clear error messages"
      "Stripe" "Error Handling" 4
  ; mkUXPrinciple "Address Validation"
      "Verify and correct addresses in real-time"
      "Stripe" "Data Quality" 4
  ; mkUXPrinciple "Order Summary"
      "Show clear itemized breakdown of costs and items"
      "Stripe" "Transparency" 4
  ; mkUXPrinciple "Return Policy Visibility"
      "Make return policies easily accessible during checkout"
      "Stripe" "Trust" 3
  ; mkUXPrinciple "Save for Later"
      "Allow customers to save cart for future purchase"
      "Stripe" "Flexibility" 3 ].

Definition PAYMENT_principles : list UXPrinciple :=
  [ mkUXPrinciple "Multiple Payment Options"
      "Offer various payment methods including UPI, cards, net banking"
      "Stripe" "Flexibility" 5
  ; mkUXPrinciple "Secure Payment Indicators"
      "Clearly display security badges and trust indicators"
      "Stripe" "Trust" 5
  ; mkUXPrinciple "Save Payment Information"
      "Allow users to save payment methods for future use"
      "Stripe" "Convenience" 4
  ; mkUXPrinciple "Error Prevention"
      "Implement validation and clear error messages"
      "Don't Make Me Think" "Error Handling" 4 ].

Definition ONBOARDING_principles : list UXPrinciple :=
  [ mkUXPrinciple "Progressive Disclosure"
      "Show information gradually as needed"
      "Don't Make Me Think" "Information Architecture" 4
  ; mkUXPrinciple "Clear Value Proposition"
      "Communicate benefits clearly to small businesses"
      "Meesho Tech" "Communication" 5
  ; mkUXPrinciple "Visual Guidance"
      "Use visual cues for tier 3/4 market users"
      "Meesho Tech" "Accessibility" 4
  ; mkUXPrinciple "Localized Content"
      "Use language and examples relevant to local context"
      "Meesho Tech" "Localization" 5 ].

Definition DASHBOARD_principles : list UXPrinciple :=
  [ mkUXPrinciple "Information Hierarchy"
      "Organize information by importance and frequency of use"
      "Don't Make Me Think" "Layout" 5
  ; mkUXPrinciple "Action-Oriented Design"
      "Make common actions easily accessible"
      "GO-JEK" "Navigation" 4
  ; mkUXPrinciple "Real-time Updates"
      "Show live data and updates"
      "GO-JEK" "Performance" 4
  ; mkUXPrinciple "Customizable Views"
      "Allow users to customize their dashboard"
      "GO-JEK" "Personalization" 3 ].

Definition ANALYTICS_principles : list UXPrinciple :=
  [ mkUXPrinciple "Data Visualization"
      "Use appropriate charts and graphs for data presentation"
      "GO-JEK" "Visualization" 5
  ; mkUXPrinciple "Actionable Insights"
      "Provide clear, actionable insights from data"
      "GO-JEK" "Value" 5
  ; mkUXPrinciple "Export Options"
      "Allow easy export of data in multiple formats"
      "GO-JEK" "Functionality" 4
  ; mkUXPrinciple "Performance Metrics"
      "Show key performance indicators prominently"
      "GO-JEK" "Metrics" 4 ].

Definition ETHICAL_principles : list UXPrinciple :=
  [ mkUXPrinciple "Transparent Pricing"
      "Clearly display all costs, fees, and charges without hidden terms"
      "D91 Labs" "Transparency" 5
  ; mkUXPrinciple "No Forced Actions"
      "Avoid requiring unnecessary actions or permissions to proceed"
      "D91 Labs" "User Control" 5
  ; mkUXPrinciple "Clear Interface"
      "Maintain interface clarity without misleading elements or hidden options"
      "D91 Labs" "Interface Design" 5
  ; mkUXPrinciple "Minimal Nagging"
      "Limit notifications and prompts to essential communications"
      "D91 Labs" "Communication" 4
  ; mkUXPrinciple "Unobstructed Flow"
      "Ensure users can complete tasks without artificial barriers"
      "D91 Labs" "User Flow" 5
  ; mkUXPrinciple "No Sneaky Practices"
      "Avoid hidden costs, auto-renewals, or bundled products without clear disclosure"
      "D91 Labs" "Transparency" 5
  ; mkUXPrinciple "Genuine Social Proof"
      "Use authentic user reviews and testimonials without manipulation"
      "D91 Labs" "Trust" 4
  ; mkUXPrinciple "No False Urgency"
      "Avoid creating artificial time pressure or scarcity"
      "D91 Labs" "User Control" 5
  ; mkUXPrinciple "Clear Terms"
      "Present terms and conditions in clear, understandable language"
      "D91 Labs" "Transparency" 4
  ; mkUXPrinciple "Opt-In Defaults"
      "Set default options to the safest choice for users"
      "D91 Labs" "User Control" 5
  ; mkUXPrinciple "Easy Cancellation"
      "Make it as easy to cancel as it is to subscribe"
      "D91 Labs" "User Control" 5
  ; mkUXPrinciple "No Dark Patterns"
      "Avoid any design elements that manipulate user behavior"
      "D91 Labs" "Ethics" 5
  ; mkUXPrinciple "Accessible Information"
      "Ensure all important information is easily accessible and readable"
      "D91 Labs" "Transparency" 4
  ; mkUXPrinciple "Consistent Messaging"
      "Maintain consistent communication without misleading claims"
      "D91 Labs" "Communication" 4
  ; mkUXPrinciple "User-Centric Defaults"
      "Set default options that benefit the user, not the business"
      "D91 Labs" "Ethics" 5 ].

Definition VISUAL_principles : list UXPrinciple :=
  [ mkUXPrinciple "High Visibility Filters"
      "Use visual elements instead of text for filtering options"
      "Meesho Tech" "Navigation" 5
  ; mkUXPrinciple "Visual Hierarchy"
      "Place most important filters in first two positions"
      "Meesho Tech" "Layout" 5
  ; mkUXPrinciple "Scroll Indicator"
      "Use partial button to indicate more options available"
      "Meesho Tech" "Navigation" 4
  ; mkUXPrinciple "Icon-Based Navigation"
      "Use clear, intuitive icons that work without text"
      "Meesho Tech" "Visual Design" 5
  ; mkUXPrinciple "Category Visualization"
      "Use appropriate images for each category filter"
      "Meesho Tech" "Visual Design" 4
  ; mkUXPrinciple "Dynamic Filtering"
      "Show relevant filters based on user behavior"
      "Meesho Tech" "Personalization" 5
  ; mkUXPrinciple "Filter Performance"
      "Rank and fix filters based on their performance"
      "Meesho Tech" "Optimization" 4
  ; mkUXPrinciple "Visual Consistency"
      "Maintain consistent visual style across filters"
      "Meesho Tech" "Visual Design" 4
  ; mkUXPrinciple "Screen Real Estate"
      "Optimize use of screen space for maximum impact"
      "Meesho Tech" "Layout" 5
  ; mkUXPrinciple "Progressive Disclosure"
      "Show additional options through scrolling"
      "Meesho Tech" "Navigation" 4
  ; mkUXPrinciple "Visual Feedback"
      "Provide clear visual feedback for user actions"
      "Meesho Tech" "Interaction" 5
  ; mkUXPrinciple "Cultural Relevance"
      "Use visuals that resonate with local market"
      "Meesho Tech" "Localization" 5
  ; mkUXPrinciple "Minimal Text"
      "Reduce reliance on text-based instructions"
      "Meesho Tech" "Accessibility" 5
  ; mkUXPrinciple "Visual Affordances"
      "Make interactive elements visually obvious"
      "Meesho Tech" "Interaction" 4
  ; mkUXPrinciple "Color and Contrast"
      "Use high contrast and culturally appropriate colors"
      "Meesho Tech" "Visual Design" 4 ].

Definition PRICING_principles : list UXPrinciple :=
  [ mkUXPrinciple "Early Fee Disclosure"
      "Display nonstandard fees and special charges on product pages"
      "Nielsen Norman Group" "Transparency" 5
  ; mkUXPrinciple "Total Cost Visibility"
      "Show complete cost including all fees before checkout"
      "Nielsen Norman Group" "Transparency" 5
  ; mkUXPrinciple "Shipping Cost Calculator"
      "Allow users to calculate shipping costs on product pages"
      "Nielsen Norman Group" "Functionality" 5
  ; mkUXPrinciple "Fee Explanation"
      "Clearly explain the purpose of each fee"
      "Nielsen Norman Group" "Transparency" 4
  ; mkUXPrinciple "Prominent Fee Display"
      "Place fee information near the product price"
      "Nielsen Norman Group" "Layout" 5
  ; mkUXPrinciple "Progressive Disclosure"
      "Show basic fees upfront, detailed breakdowns on demand"
      "Nielsen Norman Group" "Information Architecture" 4
  ; mkUXPrinciple "International Shipping Clarity"
      "Clearly indicate international shipping costs and restrictions"
      "Nielsen Norman Group" "Transparency" 5
  ; mkUXPrinciple "Special Delivery Notice"
      "Highlight special delivery requirements and costs"
      "Nielsen Norman Group" "Transparency" 4
  ; mkUXPrinciple "Fee Consistency"
      "Maintain consistent fee terminology across the site"
      "Nielsen Norman Group" "Consistency" 4
  ; mkUXPrinciple "Tax Estimation"
      "Provide tax estimates based on location"
      "Nielsen Norman Group" "Functionality" 4
  ; mkUXPrinciple "Bulk Pricing Clarity"
      "Clearly show pricing for bulk or oversized items"
      "Nielsen Norman Group" "Transparency" 4
  ; mkUXPrinciple "Service Fee Transparency"
      "Explain service fees and their purpose"
      "Nielsen Norman Group" "Transparency" 5
  ; mkUXPrinciple "Installation Cost Clarity"
      "Show installation costs for applicable items"
      "Nielsen Norman Group" "Transparency" 4
  ; mkUXPrinciple "Fee Breakdown"
      "Provide detailed breakdown of all costs"
      "Nielsen Norman Group" "Transparency" 4
  ; mkUXPrinciple "No Hidden Costs"
      "Avoid revealing significant costs only at checkout"
      "Nielsen Norman Group" "Ethics" 5 ].

Definition CONTENT_principles : list UXPrinciple :=
  [ mkUXPrinciple "Clear Language"
      "Use simple, straightforward language that users can easily understand"
      "FinTech UX Writing" "Clarity" 5
  ; mkUXPrinciple "Concise Communication"
      "Be direct and to the point, avoiding unnecessary complexity"
      "FinTech UX Writing" "Clarity" 5
  ; mkUXPrinciple "Consistent Terminology"
      "Maintain consistent terms and phrases throughout the interface"
      "FinTech UX Writing" "Consistency" 5
  ; mkUXPrinciple "Jargon-Free Content"
      "Avoid financial jargon and technical terms unless necessary"
      "FinTech UX Writing" "Accessibility" 5
  ; mkUXPrinciple "Progressive Disclosure"
      "Reveal complex information gradually as needed"
      "FinTech UX Writing" "Information Architecture" 4
  ; mkUXPrinciple "Error Prevention"
      "Provide clear instructions and warnings to prevent user errors"
      "FinTech UX Writing" "Error Handling" 5
  ; mkUXPrinciple "Action-Oriented Text"
      "Use verbs and active voice to guide user actions"
      "FinTech UX Writing" "Interaction" 4
  ; mkUXPrinciple "Contextual Help"
      "Provide relevant help text exactly when users need it"
      "FinTech UX Writing" "Support" 4
  ; mkUXPrinciple "Brand Voice"
      "Maintain consistent brand voice and tone across all content"
      "FinTech UX Writing" "Branding" 4
  ; mkUXPrinciple "Accessible Content"
      "Ensure content is readable by screen readers and assistive technologies"
      "FinTech UX Writing" "Accessibility" 5
  ; mkUXPrinciple "Legal Compliance"
      "Ensure all content meets regulatory and legal requirements"
      "FinTech UX Writing" "Compliance" 5
  ; mkUXPrinciple "User-Centric Language"
      "Focus on user benefits and outcomes rather than features"
      "FinTech UX Writing" "User Focus" 4
  ; mkUXPrinciple "Clear Error Messages"
      "Provide specific, actionable error messages with solutions"
      "FinTech UX Writing" "Error Handling" 5
  ; mkUXPrinciple "Progressive Complexity"
      "Start with simple concepts and gradually introduce complexity"
      "FinTech UX Writing" "Learning" 4
  ; mkUXPrinciple "Trust-Building Content"
      "Use language that builds trust and confidence"
      "FinTech UX Writing" "Trust" 5 ].

Definition GAMIFICATION_principles : list UXPrinciple :=
  [ mkUXPrinciple "Reward System"
      "Implement points, badges, and rewards for financial achievements"
      "FinTech Gamification" "Engagement" 5
  ; mkUXPrinciple "Progress Visualization"
      "Use progress bars and visual indicators to show financial goal progress"
      "FinTech Gamification" "Feedback" 5
  ; mkUXPrinciple "Financial Challenges"
      "Create engaging challenges and goals for saving and investing"
      "FinTech Gamification" "Motivation" 5
  ; mkUXPrinciple "Educational Gamification"
      "Use interactive quizzes and exercises to teach financial concepts"
      "FinTech Gamification" "Learning" 5
  ; mkUXPrinciple "Social Competition"
      "Implement leaderboards and social sharing for financial achievements"
      "FinTech Gamification" "Community" 4
  ; mkUXPrinciple "Personalized Goals"
      "Allow users to set and track personalized financial goals"
      "FinTech Gamification" "Personalization" 5
  ; mkUXPrinciple "Instant Feedback"
      "Provide immediate feedback for financial actions and achievements"
      "FinTech Gamification" "Feedback" 5
  ; mkUXPrinciple "Tiered Rewards"
      "Implement progressive reward levels based on user engagement"
      "FinTech Gamification" "Engagement" 4
  ; mkUXPrinciple "Visual Progress"
      "Use visual representations (like city building) for financial progress"
      "FinTech Gamification" "Visualization" 4
  ; mkUXPrinciple "Daily Challenges"
      "Offer daily financial tasks and challenges to maintain engagement"
      "FinTech Gamification" "Engagement" 4
  ; mkUXPrinciple "Achievement Unlocking"
      "Design progressive achievement system for financial milestones"
      "FinTech Gamification" "Motivation" 4
  ; mkUXPrinciple "Community Features"
      "Enable social interaction and community challenges"
      "FinTech Gamification" "Community" 4
  ; mkUXPrinciple "Reward Store"
      "Create a marketplace for redeeming earned points and rewards"
      "FinTech Gamification" "Engagement" 4
  ; mkUXPrinciple "Financial Literacy Games"
      "Develop interactive games for learning financial concepts"
      "FinTech Gamification" "Learning" 4
  ; mkUXPrinciple "Savings Challenges"
      "Implement competitive savings challenges with rewards"
      "FinTech Gamification" "Motivation" 5 ].

Definition CART_principles : list UXPrinciple :=
  [ mkUXPrinciple "Progressive Profiling"
      "Collect customer information gradually over multiple visits"
      "E-commerce Best Practices" "Data Collection" 5
  ; mkUXPrinciple "One-Page Checkout"
      "Consolidate checkout process into a single page"
      "E-commerce Best Practices" "Efficiency" 5
  ; mkUXPrinciple "One-Click Checkout"
      "Enable instant checkout for returning customers"
      "E-commerce Best Practices" "Efficiency" 5
  ; mkUXPrinciple "Cost Transparency"
      "Display all costs and fees upfront"
      "E-commerce Best Practices" "Trust" 5
  ; mkUXPrinciple "Mobile Optimization"
      "Optimize checkout for mobile devices with clear CTAs"
      "E-commerce Best Practices" "Accessibility" 5
  ; mkUXPrinciple "Guest Checkout"
      "Allow purchases without account creation"
      "E-commerce Best Practices" "Accessibility" 5
  ; mkUXPrinciple "Trust Signals"
      "Display security badges and payment method icons"
      "E-commerce Best Practices" "Trust" 5
  ; mkUXPrinciple "Payment Options"
      "Offer multiple payment methods including digital wallets"
      "E-commerce Best Practices" "Flexibility" 5
  ; mkUXPrinciple "Cross-Channel Consistency"
      "Maintain consistent checkout experience across all channels"
      "E-commerce Best Practices" "Consistency" 4
  ; mkUXPrinciple "Checkout Analytics"
      "Track and analyze checkout metrics for optimization"
      "E-commerce Best Practices" "Analytics" 4
  ; mkUXPrinciple "Fraud Prevention"
      "Implement robust fraud detection without hindering legitimate purchases"
      "E-commerce Best Practices" "Security" 5
  ; mkUXPrinciple "Omnichannel Checkout"
      "Enable checkout on all customer touchpoints"
      "E-commerce Best Practices" "Accessibility" 4
  ; mkUXPrinciple "Cart Recovery"
      "Implement automated cart recovery emails with incentives"
      "E-commerce Best Practices" "Retention" 4
  ; mkUXPrinciple "Personalized Recommendations"
      "Show relevant product recommendations during checkout"
      "E-commerce Best Practices" "Personalization" 4
  ; mkUXPrinciple "Post-Purchase Engagement"
      "Maintain engagement after purchase with updates and reviews"
      "E-commerce Best Practices" "Retention" 4
  ; mkUXPrinciple "Loyalty Integration"
      "Integrate loyalty programs into checkout process"
      "E-commerce Best Practices" "Retention" 4 ].

(** A manager holds the dictionary [self.principles], in insertion
    order. *)
Record UXPrinciplesManager : Type := mkManager {
  principles : list (FlowType * list UXPrinciple)
}.

(** [UXPrinciplesManager()]: the dictionary built by [__init__]. *)
Definition new_manager : UXPrinciplesManager :=
  mkManager
    [ (GENERAL, GENERAL_principles); (CHECKOUT, CHECKOUT_principles);
      (PAYMENT, PAYMENT_principles); (ONBOARDING, ONBOARDING_principles);
      (DASHBOARD, DASHBOARD_principles); (ANALYTICS, ANALYTICS_principles);
      (ETHICAL, ETHICAL_principles); (VISUAL, VISUAL_principles);
      (PRICING, PRICING_principles); (CONTENT, CONTENT_principles);
      (GAMIFICATION, GAMIFICATION_principles); (CART, CART_principles) ].

(** [d.get(key, [])]. *)
Fixpoint dict_get (d : list (FlowType * list UXPrinciple)) (key : FlowType)
  : list UXPrinciple :=
  match d with
  | [] => []
  | (k, v) :: d' => if FlowType_eqb k key then v else dict_get d' key
  end.

Definition get_principles_for_flow (self : UXPrinciplesManager)
    (flow_type : FlowType) : list UXPrinciple :=
  dict_get (principles self) flow_type
  ++ dict_get (principles self) GENERAL
  ++ dict_get (principles self) ETHICAL
  ++ dict_get (principles self) VISUAL
  ++ dict_get (principles self) PRICING
  ++ dict_get (principles self) CONTENT
  ++ dict_get (principles self) GAMIFICATION
  ++ dict_get (principles self) CART.









End ux_principles.
(* ===================================================================== *)
(** ** model_clients/retry_logic.py *)
(* ===================================================================== *)

Module retry_logic.

#[local] Open Scope Q_scope.

(** Delays are seconds, kept as exact rationals: the integer arguments
    and the waits read from error texts are represented exactly, and the
    rounding of the floating-point jitter product is not modelled.  The
    limits of the interpreter's numbers are outside the model as well:
    the overflow of floats, the longest sleep that [time.sleep] accepts
    (about 9.2e9 seconds) and the 4300 digits that [int] reads by
    default. *)

Record params : Type := mkParams {
  max_retries : Z;
  initial_delay : Q;
  max_delay : Q;
  backoff_factor : Q;
  jitter : Q
}.

(** The default arguments of [retry_with_exponential_backoff]. *)
Definition defaults : params := mkParams 5 2 70 2 (1 # 10).

Definition Qltb (a b : Q) : bool := negb (Qle_bool b a).

(** [max(a, b)] and [min(a, b)]: the first argument unless the second is
    strictly greater (smaller). *)
Definition py_max (a b : Q) : Q := if Qltb a b then b else a.
Definition py_min (a b : Q) : Q := if Qltb b a then b else a.

(** [re.search(r'retry after (\d+) seconds', s)]: the digits of group 1
    of the leftmost match, as the values that [int] reads from them.
    [\d] matches every decimal digit of Unicode.  The digits are
    followed by a space, so the greedy [\d+] never has to give a digit
    back; and a match starts at an ASCII character, never inside the
    bytes of another one. *)
Definition match_retry_after_here (s : string) : option (list N) :=
  match Py.drop_prefix "retry after " s with
  | Some r =>
      match Py.span_decimals r with
      | ([], _) => None
      | (ds, r') => if Py.startswith r' " seconds" then Some ds else None
      end
  | None => None
  end.

Fixpoint search_retry_after (s : string) : option (list N) :=
  match match_retry_after_here s with
  | Some ds => Some ds
  | None =>
      match s with
      | EmptyString => None
      | String _ s' => search_retry_after s'
      end
  end.

(** The wait time read from an error text: 60 seconds unless the text
    names one. *)
Definition wait_time (error_str : string) : Q :=
  match search_retry_after (Py.lower error_str) with
  | Some ds => inject_Z (Py.int_of_decimals ds)
  | None => 60
  end.

Definition jitter_amount (p : params) (delay u : Q) : Q :=
  delay * jitter p * u.

Definition sleep_time (p : params) (error_str : string) (delay u : Q) : Q :=
  py_min (py_max (wait_time error_str) (delay + jitter_amount p delay u))
         (max_delay p).

Definition next_delay (p : params) (delay : Q) : Q :=
  py_min (delay * backoff_factor p) (max_delay p).

Section wrapper.
Variable A : Type.
Variable p : params.
(** [func k]: what the [k]-th call of the decorated function does. *)
Variable func : nat -> Py.res A.
(** [uniform k]: the [k]-th draw of [random.uniform(-1, 1)]. *)
Variable uniform : nat -> Q.

(** The [while True] loop of [wrapper], from the state
    [(retries, delay)]; [slept] lists the sleeps so far, latest first.
    [time.sleep] raises [ValueError] on a negative length.  The result
    is [None] when the fuel runs out. *)
Fixpoint loop (fuel : nat) (retries : nat) (delay : Q) (slept : list Q)
  : option (list Q * Py.res A) :=
  match fuel with
  | O => None
  | S fuel' =>
      match func retries with
      | Py.Ok v => Some (rev slept, Py.Ok v)
      | Py.Raise e =>
          let error_str := Py.exn_msg e in
          if (Z.of_nat retries >=? max_retries p)%Z
             || negb (Py.contains "429" error_str)
          then Some (rev slept, Py.Raise e)
          else
            let s := sleep_time p error_str delay (uniform retries) in
            if Qltb s 0 then
              Some (rev slept,
                    Py.Raise (Py.mkExn Py.ValueError
                                "sleep length must be non-negative"))
            else loop fuel' (S retries) (next_delay p delay) (s :: slept)
      end
  end.

(** One call of the decorated function: the sleeps it made and how it
    ended. *)
Definition wrapper (fuel : nat) : option (list Q * Py.res A) :=
  loop fuel 0 (initial_delay p) [].

(** Fuel that always suffices: one call and one more per allowed
    retry. *)
Definition enough_fuel : nat := S (Z.to_nat (max_retries p)).

End wrapper.

(** The schedule in the words of the specification: the delay starts
    at [initial_delay], and each retry multiplies it by [backoff_factor],
    capped at [max_delay]. *)
Fixpoint schedule_delay (p : params) (k : nat) : Q :=
  match k with
  | O => initial_delay p
  | S k' => Qmin (schedule_delay p k' * backoff_factor p) (max_delay p)
  end.

(** [initial_delay] multiplied by [backoff_factor] once per earlier
    retry. *)
Fixpoint uncapped_delay (p : params) (k : nat) : Q :=
  match k with
  | O => initial_delay p
  | S k' => uncapped_delay p k' * backoff_factor p
  end.

(** The delay as one product: [initial_delay] multiplied by
    [backoff_factor] once per earlier retry, the whole capped at
    [max_delay]. *)
Definition capped_delay (p : params) (k : nat) : Q :=
  Qmin (uncapped_delay p k) (max_delay p).

(** The attempt [k] of a decorated call is retried: it raises a
    rate-limit error, and a retry is left. *)
Definition retried (A : Type) (p : params) (func : nat -> Py.res A)
    (k : nat) : bool :=
  match func k with
  | Py.Ok _ => false
  | Py.Raise e =>
      Py.contains "429" (Py.exn_msg e) && (Z.of_nat k <? max_retries p)%Z
  end.

(** The sleep before the [k]-th retry in the words of the specification:
    the scheduled delay with its jitter, or the wait time of the error
    text when that is longer, capped at [max_delay]. *)
Definition schedule_sleep (p : params) (error_str : string) (k : nat)
    (u : Q) : Q :=
  Qmin (Qmax (wait_time error_str)
          (schedule_delay p k + schedule_delay p k * jitter p * u))
       (max_delay p).

Definition rate_limited (msg : string) : Py.exn := Py.mkExn Py.Exception msg.

End retry_logic.

(* ===================================================================== *)
(** ** The outside world *)
(* ===================================================================== *)

Module Effects.

(** What a run does to the outside, in the order it does it. *)
Inductive event : Type :=
| EvClient (model_name : string)                 (* create_model_client *)
| EvRequest (model_name prompt : string) (reply : Py.res string)
                                                 (* client.send_request *)
| EvQuery (query_text : string) (n_results : Z)  (* collection.query *)
| EvAdd (documents : list string) (metadatas : list json.value)
        (ids : list string) (stored : bool)      (* collection.add *)
| EvCount                                        (* collection.count *)
| EvUuid (id : string)                           (* uuid.uuid4 *)
| EvWarning (message : string).                  (* logger.warning *)

(** The state of a run: a clock that counts the calls made to the
    outside, and the trace of events, oldest first. *)
Record World : Type := mkWorld {
  clock : nat;
  trace : list event
}.

Definition initial : World := mkWorld 0 [].

(** The part of the imaging library [analyze_image] names. *)
Record PIL : Type := mkPIL {
  Image : Type;
  resize : Image -> Z * Z -> Image;
  size : Image -> Z * Z;
  mode : Image -> string;
  format : Image -> string;
  (** the base64 text of the image saved as PNG *)
  save_png_base64 : Image -> string
}.

(** The collaborators of the pipeline, as oracles: each is asked at the
    current clock value, so that its answer may depend on everything that
    happened before. *)
Record Env : Type := mkEnv {
  pil : PIL;
  (** building a client: [None] when it is built, the exception
      otherwise *)
  client_failure : nat -> string -> option Py.exn;
  (** the completion of a prompt by the model named *)
  completion : nat -> string -> string -> Py.res string;
  (** [os.path.exists] *)
  path_exists : string -> bool;
  (** [str(uuid.uuid4())] *)
  uuid4 : nat -> string;
  (** [collection.add]: [None] when the documents are stored *)
  add_failure :
    nat -> list string -> list json.value -> list string -> option Py.exn;
  (** [collection.count()] *)
  count : nat -> Py.res Z;
  (** [collection.query(query_texts=[q], n_results=n)]: a
      JSON-serialisable result, or an exception *)
  query_result : nat -> string -> Z -> Py.res json.value
}.

(** Computations: state and exceptions; the state survives a raise. *)
Definition M (A : Type) : Type := World -> Py.res A * World.

Definition ret {A} (a : A) : M A := fun w => (Py.Ok a, w).

Definition bind {A B} (m : M A) (k : A -> M B) : M B :=
  fun w =>
    match m w with
    | (Py.Ok a, w') => k a w'
    | (Py.Raise e, w') => (Py.Raise e, w')
    end.

Definition raise {A} (e : Py.exn) : M A := fun w => (Py.Raise e, w).

Definition lift {A} (r : Py.res A) : M A := fun w => (r, w).

(** [try: m  except cls as e: h e]. *)
Definition try_except {A} (m : M A) (cls : Py.exn_class)
    (h : Py.exn -> M A) : M A :=
  fun w =>
    match m w with
    | (Py.Ok a, w') => (Py.Ok a, w')
    | (Py.Raise e, w') =>
        if Py.isinstance e cls then h e w' else (Py.Raise e, w')
    end.

(** One call to the outside: the clock advances and the event is
    recorded. *)
Definition tick (ev : event) : M unit :=
  fun w => (Py.Ok tt, mkWorld (S (clock w)) (trace w ++ [ev])).

Definition now : M nat := fun w => (Py.Ok (clock w), w).

Definition warning (message : string) : M unit :=
  fun w => (Py.Ok tt, mkWorld (clock w) (trace w ++ [EvWarning message])).

(** The same on pure computations. *)
Definition try_except_pure {A} (r : Py.res A) (cls : Py.exn_class)
    (h : Py.exn -> Py.res A) : Py.res A :=
  match r with
  | Py.Ok a => Py.Ok a
  | Py.Raise e => if Py.isinstance e cls then h e else Py.Raise e
  end.

End Effects.

Declare Scope py_scope.
Delimit Scope py_scope with py.
Notation "x <- m ;; k" := (Effects.bind m (fun x => k))
  (at level 61, m at next level, right associativity) : py_scope.
Notation "m ;; k" := (Effects.bind m (fun _ => k))
  (at level 61, right associativity) : py_scope.

(* ===================================================================== *)
(** ** chroma_setup.py *)
(* ===================================================================== *)

Module chroma_setup.
Import Effects.
#[local] Open Scope py_scope.

Section ChromaDBManager.
Variable env : Env.

(** [ChromaDBManager.add_documents]: any failure of the collection is
    logged and raised again. *)
Definition add_documents (documents : list string)
    (metadatas : list json.value) (ids : list string) : M unit :=
  try_except
    (t <- now ;;
     match add_failure env t documents metadatas ids with
     | None => tick (EvAdd documents metadatas ids true)
     | Some e => tick (EvAdd documents metadatas ids false) ;; raise e
     end ;;
     t' <- now ;;
     tick EvCount ;;
     _ <- lift (count env t') ;;
     ret tt)
    Py.Exception
    (fun e => raise e).

(** [ChromaDBManager.query], with its default [n_results=5]. *)
Definition query (query_text : string) : M json.value :=
  t <- now ;;
  tick (EvQuery query_text 5) ;;
  lift (query_result env t query_text 5).




End ChromaDBManager.

End chroma_setup.

(* ===================================================================== *)
(** ** test_merchant_feedback.py *)
(* ===================================================================== *)

Module test_merchant_feedback.
Import Effects.
Import ux_principles.
#[local] Open Scope py_scope.

(** *** Persona definitions *)

Record Persona : Type := mkPersona {
  pname : string;
  pdescription : string;
  pcharacteristics : string
}.

Definition internet_first_entrepreneur : Persona :=
  mkPersona
    "Internet First Entrepreneur"
    "A data-driven, innovative entrepreneur with a strong focus on user experience and strategic growth, blending agility with methodical decision-making."
    (Py.cat
       [ Py.nl;
         "        - Values long-term partnerships and embraces the latest technological advancements"; Py.nl;
         "        - Prioritizes user experience, continuous innovation, and data intelligence for decision-making"; Py.nl;
         "        - Methodical yet agile, open to experimentation and creative problem-solving"; Py.nl;
         "        - Focused on quality, data accuracy, and sustained market leadership"; Py.nl;
         "        - Manages complex sales funnels and payment flows with strategic precision"; Py.nl;
         "        - Balances resource constraints with a strong emphasis on brand identity and market reach"; Py.nl;
         "        - Tracks performance metrics closely and seeks self-serve capabilities"; Py.nl;
         "        - Analytical, design-savvy, adaptable, and user-centric"; Py.nl;
         "        - Represents the upper SME to MM premium segment"; Py.nl;
         "        " ]).

Definition hybrid_emerging_business : Persona :=
  mkPersona
    "Hybrid Emerging Business"
    "A resourceful, founder-driven business transitioning from traditional to digital with a cautious yet enterprising mindset."
    (Py.cat
       [ Py.nl;
         "        - Balances traditional business values with a willingness to adopt digital tools"; Py.nl;
         "        - Operates with limited resources and a trial-and-error approach to growth"; Py.nl;
         "        - Prefers familiar business metrics like GMV and RTO but open to learning new ones"; Py.nl;
         "        - Seeks easy-to-use, affordable digital solutions and DIY-friendly onboarding"; Py.nl;
         "        - Values proactive customer support and guidance, including social media advice"; Py.nl;
         "        - Price-sensitive and focused on customer acquisition and scaling challenges"; Py.nl;
         "        - Limited tech savviness but motivated to automate and streamline operations"; Py.nl;
         "        - Enterprising, cautious, and resourceful"; Py.nl;
         "        - Represents the emerging business segment"; Py.nl;
         "        " ]).


(** The dictionary [personas]. *)
Definition personas : list (string * Persona) :=
  [ ("internet_first_entrepreneur", internet_first_entrepreneur);
    ("hybrid_emerging_business", hybrid_emerging_business) ].

Fixpoint personas_get (d : list (string * Persona)) (key : string)
  : option Persona :=
  match d with
  | [] => None
  | (k, v) :: d' => if String.eqb k key then Some v else personas_get d' key
  end.

(** *** Feature testing query template *)

(** [test_query_template.format(...)]. *)
Definition test_query_template (persona_name persona_description persona_characteristics feature_description image_context context ux_principles : string) : string :=
  Py.cat
    [ Py.nl;
      "You are simulating a usability test as "; persona_name; ", representing "; persona_description; Py.nl;
      Py.nl;
      "Merchant Characteristics:"; Py.nl;
      persona_characteristics; Py.nl;
      Py.nl;
      "Feature to Test: "; Py.dq; feature_description; Py.dq; Py.nl;
      image_context; Py.nl;
      "Context: "; Py.dq; context; Py.dq; Py.nl;
      Py.nl;
      "UX Principles to Consider:"; Py.nl;
      ux_principles; Py.nl;
      Py.nl;
      "Your goal is to assess the feature's usability and suggest improvements from your persona's perspective."; Py.nl;
      "Consider these key aspects:"; Py.nl;
      Py.nl;
      "1. Value Offering"; Py.nl;
      "- How well does it address your business needs?"; Py.nl;
      "- Does it align with your segment's requirements ("; persona_name; ")?"; Py.nl;
      "- What business value do you expect from this feature?"; Py.nl;
      Py.nl;
      "2. Feature Usefulness"; Py.nl;
      "- How practical is this feature for your business operations?"; Py.nl;
      "- Does it solve your specific pain points?"; Py.nl;
      "- What additional capabilities would make it more valuable?"; Py.nl;
      Py.nl;
      "3. Ease of Use"; Py.nl;
      "- How intuitive is the feature for your technical expertise level?"; Py.nl;
      "- Are the workflows aligned with your business processes?"; Py.nl;
      "- What aspects might be challenging for your segment?"; Py.nl;
      Py.nl;
      "4. Discoverability"; Py.nl;
      "- How easily can you find and understand the feature?"; Py.nl;
      "- Is the navigation logical for your business context?"; Py.nl;
      "- Are important functions clearly visible?"; Py.nl;
      Py.nl;
      "5. Design Appeal"; Py.nl;
      "- Does the design match your brand expectations?"; Py.nl;
      "- Is it visually appropriate for your business segment?"; Py.nl;
      "- Does it inspire confidence in using the feature?"; Py.nl;
      Py.nl;
      "Provide specific, actionable feedback that reflects:"; Py.nl;
      "- Your business segment's expectations"; Py.nl;
      "- Your technical comfort level"; Py.nl;
      "- Your typical workflow needs"; Py.nl;
      "- Your specific challenges"; Py.nl;
      "- Your success metrics"; Py.nl;
      Py.nl;
      "Format your response as if you were speaking directly about your experience with the feature."; Py.nl ].

(** *** Results *)

Record UsabilityScore : Type := mkScore {
  score : float;
  rating : string
}.

Record PersonaResult : Type := mkResult {
  persona : string;
  usability_score : UsabilityScore;
  feedback_summary : json.value;
  raw_feedback : string
}.

Record Report : Type := mkReport {
  feature_name : string;
  flow_type : string;
  test_results : list PersonaResult
}.

(** *** Pure helpers *)

Definition create_default_summary : json.value :=
  let entry :=
    json.Dict [ ("summary", json.Str "Error processing feedback");
                ("quote", json.Str "N/A") ] in
  json.Dict
    [ ("Value_Offering", entry);
      ("Feature_Usefulness", entry);
      ("Ease_of_Use", entry);
      ("Discoverability", entry);
      ("Design_Appeal", entry) ].

#[local] Open Scope float_scope.

Definition get_usability_rating (score : float) : string :=
  if 4.5 <=? score then "Excellent"
  else if 4.0 <=? score then "Very Good"
  else if 3.5 <=? score then "Good"
  else if 3.0 <=? score then "Fair"
  else if 2.5 <=? score then "Poor"
  else "Very Poor".

#[local] Close Scope float_scope.

(** The prompts. *)

Definition analysis_prompt (width height format mode : string) : string :=
  Py.cat
    [ Py.nl;
      "            Analyze this design interface image and provide a detailed description focusing on:"; Py.nl;
      "            1. UI Components and Layout"; Py.nl;
      "            2. Visual Design Elements"; Py.nl;
      "            3. User Interaction Points"; Py.nl;
      "            4. Accessibility Features"; Py.nl;
      "            5. Potential Usability Concerns"; Py.nl;
      "            "; Py.nl;
      "            Image Details:"; Py.nl;
      "            - Dimensions: "; width; "x"; height; " pixels"; Py.nl;
      "            - Format: "; format; Py.nl;
      "            - Color Mode: "; mode; Py.nl;
      "        " ].

Definition image_context_of (image_analysis : string) : string :=
  Py.cat
    [ Py.nl;
      "Visual Design Analysis:"; Py.nl;
      image_analysis ].

Definition context_prompt (text image_context : string) : string :=
  Py.cat
    [ Py.nl;
      "        Analyze and extract key points from the following input:"; Py.nl;
      "        "; Py.nl;
      "        Text Description:"; Py.nl;
      "        "; text; Py.nl;
      "        "; Py.nl;
      "        "; image_context; Py.nl;
      "        "; Py.nl;
      "        Return a concise list of keywords and a brief summary that would be efficient to retrieve data from RAG."; Py.nl;
      "        Focus on:"; Py.nl;
      "        1. Main features and functionality"; Py.nl;
      "        2. User experience aspects (including visual design if image provided)"; Py.nl;
      "        3. Technical requirements"; Py.nl;
      "        4. Business impact"; Py.nl;
      "        " ].

Definition scoring_prompt (response : string) : string :=
  Py.cat
    [ Py.nl;
      "        Evaluate the following user test response against these core design principles:"; Py.nl;
      Py.nl;
      "        CORE DESIGN PRINCIPLES:"; Py.nl;
      "        1. User Experience & Interface"; Py.nl;
      "           - Clarity and ease of understanding"; Py.nl;
      "           - Consistent and predictable behavior"; Py.nl;
      "           - Mobile and device responsiveness"; Py.nl;
      "           - Error prevention and recovery"; Py.nl;
      Py.nl;
      "        2. Business Value & Efficiency"; Py.nl;
      "           - Task completion efficiency"; Py.nl;
      "           - Integration with existing workflows"; Py.nl;
      "           - Impact on business operations"; Py.nl;
      "           - ROI and performance metrics"; Py.nl;
      Py.nl;
      "        3. Merchant-Centric Features"; Py.nl;
      "           - Alignment with merchant needs"; Py.nl;
      "           - Learning curve and onboarding"; Py.nl;
      "           - Security and trust"; Py.nl;
      "           - Localization and customization"; Py.nl;
      Py.nl;
      "        USER TEST RESPONSE:"; Py.nl;
      "        "; response; Py.nl;
      Py.nl;
      "        Rate the response on a scale of 1.0 to 5.0 where:"; Py.nl;
      "        1.0 = Very poor usability, major issues identified"; Py.nl;
      "        2.0 = Poor usability, significant issues present"; Py.nl;
      "        3.0 = Average usability, some issues noted"; Py.nl;
      "        4.0 = Good usability, minor issues only"; Py.nl;
      "        5.0 = Excellent usability, few or no issues"; Py.nl;
      Py.nl;
      "        Analyze the response thoroughly against each principle category, then provide a single decimal number between 1.0 and 5.0 as your final score. Only return the numerical score."; Py.nl;
      "        " ].

Definition summary_prompt (feedback : string) : string :=
  Py.cat
    [ Py.nl;
      "        Analyze the following merchant feedback and extract key points for each category:"; Py.nl;
      "        "; feedback; Py.nl;
      "        "; Py.nl;
      "        IMPORTANT: Return ONLY a valid JSON object with NO additional text or formatting (no markdown, no ```json tags)."; Py.nl;
      "        Follow this EXACT structure:"; Py.nl;
      "        {"; Py.nl;
      "            "; Py.dq; "Value Offering"; Py.dq; ": {"; Py.nl;
      "                "; Py.dq; "summary"; Py.dq; ": "; Py.dq; "Provide a detailed 2-3 line summary of how well the feature addresses business needs, including specific benefits and potential impact on operations."; Py.dq; ","; Py.nl;
      "                "; Py.dq; "quote"; Py.dq; ": "; Py.dq; "Direct quote from merchant about value"; Py.dq; Py.nl;
      "            },"; Py.nl;
      "            "; Py.dq; "Feature Usefulness"; Py.dq; ": {"; Py.nl;
      "                "; Py.dq; "summary"; Py.dq; ": "; Py.dq; "Provide a detailed 2-3 line summary of the feature's practicality and benefits, including specific use cases and advantages."; Py.dq; ","; Py.nl;
      "                "; Py.dq; "quote"; Py.dq; ": "; Py.dq; "Direct quote from merchant about usefulness"; Py.dq; Py.nl;
      "            },"; Py.nl;
      "            "; Py.dq; "Ease of Use"; Py.dq; ": {"; Py.nl;
      "                "; Py.dq; "summary"; Py.dq; ": "; Py.dq; "Provide a detailed 2-3 line summary of the feature's intuitiveness and simplicity, including specific aspects of the user experience."; Py.dq; ","; Py.nl;
      "                "; Py.dq; "quote"; Py.dq; ": "; Py.dq; "Direct quote from merchant about ease of use"; Py.dq; Py.nl;
      "            },"; Py.nl;
      "            "; Py.dq; "Discoverability"; Py.dq; ": {"; Py.nl;
      "                "; Py.dq; "summary"; Py.dq; ": "; Py.dq; "Provide a detailed 2-3 line summary of how easy features are to find and understand, including specific navigation and guidance aspects."; Py.dq; ","; Py.nl;
      "                "; Py.dq; "quote"; Py.dq; ": "; Py.dq; "Direct quote from merchant about discoverability"; Py.dq; Py.nl;
      "            },"; Py.nl;
      "            "; Py.dq; "Design Appeal"; Py.dq; ": {"; Py.nl;
      "                "; Py.dq; "summary"; Py.dq; ": "; Py.dq; "Provide a detailed 2-3 line summary of the visual and professional aspects, including specific design elements and aesthetics."; Py.dq; ","; Py.nl;
      "                "; Py.dq; "quote"; Py.dq; ": "; Py.dq; "Direct quote from merchant about design"; Py.dq; Py.nl;
      "            }"; Py.nl;
      "        }"; Py.nl;
      "        " ].

Section pipeline.
Variable env : Env.
(** [MODEL_NAME], read from the configuration file. *)
Variable MODEL_NAME : string.

(** *** The model client

    [create_model_client(model_name)] builds a client or raises; a
    client is known by the name of its model. *)
Definition create_model_client (model_name : string) : M string :=
  t <- now ;;
  tick (EvClient model_name) ;;
  match client_failure env t model_name with
  | None => ret model_name
  | Some e => raise e
  end.

(** [client.send_request(prompt)]. *)
Definition send_request (client prompt : string) : M string :=
  t <- now ;;
  let reply := completion env t client prompt in
  tick (EvRequest client prompt reply) ;;
  lift reply.

Definition chroma_manager_query := chroma_setup.query env.
Definition chroma_manager_add_documents := chroma_setup.add_documents env.

(** Reading a local variable of a function: it raises
    [UnboundLocalError] while nothing has been assigned to it. *)
Definition load_local {A} (name : string) (slot : option A) : M A :=
  match slot with
  | Some a => ret a
  | None =>
      raise (Py.mkExn Py.UnboundLocalError
               (Py.cat [ "cannot access local variable '"; name;
                         "' where it is not associated with a value" ]))
  end.

(** *** [analyze_image] *)
Definition analyze_image (image_path model_name : string) : M string :=
  (* [img] is assigned in the body, hence local, and holds nothing on
     entry *)
  let img : option (Image (pil env)) := None in
  try_except
    (img0 <- load_local "img" img ;;
     let img := resize img0 (512, 512)%Z in
     let '(width, height) := size img in
     let mode := mode img in
     let format := format img in
     let base64_image := save_png_base64 img in
     client <- create_model_client model_name ;;
     let analysis_prompt :=
       analysis_prompt (Py.str_of_int width) (Py.str_of_int height)
         format mode in
     analysis <- send_request client analysis_prompt ;;
     ret analysis)
    Py.Exception
    (fun e => ret EmptyString).

(** Truth value of an optional path: given and not empty. *)
Definition path_truthy (image_path : option string) : bool :=
  match image_path with
  | Some p => Py.truthy p
  | None => false
  end.

Definition path_or_empty (image_path : option string) : string :=
  match image_path with Some p => p | None => EmptyString end.

(** *** [generate_context_keywords] *)
Definition generate_context_keywords (text : string)
    (image_path : option string) (model_name : string) : M string :=
  try_except
    (client <- create_model_client model_name ;;
     image_context <-
       (if path_truthy image_path
           && path_exists env (path_or_empty image_path)
        then
          image_analysis <-
            analyze_image (path_or_empty image_path) model_name ;;
          ret (image_context_of image_analysis)
        else ret EmptyString) ;;
     result <- send_request client (context_prompt text image_context) ;;
     ret result)
    Py.Exception
    (fun e => ret text).

(** [float(s)]. *)
Definition builtin_float (s : string) : Py.res PrimFloat.float :=
  match PyFloat.float_of_string s with
  | Some f => Py.Ok f
  | None =>
      Py.Raise (Py.mkExn Py.ValueError "could not convert string to float")
  end.

(** *** [calculate_usability_score] *)
Definition calculate_usability_score (response model_name : string)
  : M PrimFloat.float :=
  try_except
    (client <- create_model_client model_name ;;
     score_text <- send_request client (scoring_prompt response) ;;
     lift
       (try_except_pure
          (match builtin_float (Py.strip score_text) with
           | Py.Ok score => Py.Ok (Py.max 1.0 (Py.min 5.0 score))
           | Py.Raise e => Py.Raise e
           end)
          Py.ValueError
          (fun _ => Py.Ok 3.0%float)))
    Py.Exception
    (fun e => ret 3.0%float).

(** *** [format_feedback_summary] *)

(** Cleaning the response: surrounding blanks and code-fence markers
    are removed. *)
Definition clean_response (result : string) : string :=
  let result := Py.strip result in
  let result :=
    if Py.startswith result "```json" then Py.slice_from 7 result
    else result in
  let result :=
    if Py.endswith result "```" then Py.slice_drop_last 3 result
    else result in
  Py.strip result.

(** The JSON part of a response that does not parse: the text from the
    first opening brace to the last closing brace, line feeds turned
    into blanks and carriage returns dropped. *)
Definition extracted_json (result : string) : option string :=
  let start := Py.find result "{" in
  let end_ := (Py.rfind result "}" + 1)%Z in
  if (start >=? 0)%Z && (end_ >? start)%Z then
    let cleaned_json := Py.slice start end_ result in
    Some (Py.replace (Py.chr 13) EmptyString
            (Py.replace (Py.chr 10) " " cleaned_json))
  else None.

Definition format_feedback_summary (feedback model_name : string)
  : M json.value :=
  try_except
    (client <- create_model_client model_name ;;
     result <- send_request client (summary_prompt feedback) ;;
     let result := clean_response result in
     lift
       (try_except_pure (json.loads result) Py.JSONDecodeError
          (fun je =>
             (* try to extract just the JSON part *)
             match extracted_json result with
             | Some cleaned_json =>
                 try_except_pure (json.loads cleaned_json)
                   Py.JSONDecodeError
                   (fun _ => Py.Ok create_default_summary)
             | None => Py.Ok create_default_summary
             end)))
    Py.Exception
    (fun e => ret create_default_summary).

(** *** [run_feature_test] *)

(** Truth value of a JSON-serialisable value. *)
Definition value_truthy (v : json.value) : bool :=
  match v with
  | json.Null => false
  | json.Bool b => b
  | json.Int n => negb (Z.eqb n 0)
  | json.Float f => negb (PrimFloat.eqb f 0%float)
  | json.Str s => Py.truthy s
  | json.List l => match l with [] => false | _ => true end
  | json.Dict d => match d with [] => false | _ => true end
  end.

(** Step 2, after the query: the documents of the first result list
    when the result has the expected structure, no document (and a
    warning) otherwise.  [x.get] exists on dictionaries only. *)
Definition retrieved_docs (chroma_results : json.value)
  : M (list json.value) :=
  let no_documents :=
    warning
      "ChromaDB RAG: No documents found or unexpected result structure." ;;
    ret [] in
  if value_truthy chroma_results then
    match chroma_results with
    | json.Dict d =>
        match json.dict_get d "documents" with
        | Some (json.List (json.List docs :: _)) => ret docs
        | _ => no_documents
        end
    | _ =>
        raise (Py.mkExn Py.AttributeError "object has no attribute 'get'")
    end
  else no_documents.

(** [sep.join(l)] on a list of values: every item must be a [str]. *)
Fixpoint strings_of (l : list json.value) : Py.res (list string) :=
  match l with
  | [] => Py.Ok []
  | json.Str s :: l' =>
      match strings_of l' with
      | Py.Ok r => Py.Ok (s :: r)
      | Py.Raise e => Py.Raise e
      end
  | _ :: _ =>
      Py.Raise (Py.mkExn Py.TypeError "sequence item: expected str instance")
  end.

Definition join_values (sep : string) (l : list json.value)
  : Py.res string :=
  match strings_of l with
  | Py.Ok r => Py.Ok (Py.join sep r)
  | Py.Raise e => Py.Raise e
  end.

(** Step 2: retrieve context from ChromaDB. *)
Definition retrieve_context (context_query : string) : M string :=
  chroma_results <- chroma_manager_query context_query ;;
  (* logging the result with [json.dumps] cannot fail on a
     JSON-serialisable value *)
  retrieved_docs_texts <- retrieved_docs chroma_results ;;
  lift (join_values (Py.nl ++ Py.nl) retrieved_docs_texts).

(** Step 3: the principle list of the prompt. *)
Definition ux_manager : UXPrinciplesManager := new_manager.

Definition principle_lines (flow_type : option FlowType) : string :=
  match flow_type with
  | Some f =>
      Py.join Py.nl
        (map (fun p => Py.cat [ "- "; name p; ": "; description p ])
           (get_principles_for_flow ux_manager f))
  | None => EmptyString
  end.

(** [persona_names or ["internet_first_entrepreneur"]]. *)
Definition persona_names_or_default (persona_names : option (list string))
  : list string :=
  match persona_names with
  | Some (n :: l) => n :: l
  | _ => [ "internet_first_entrepreneur" ]
  end.

(** [feature_text.split(":")[0] if ":" in feature_text else
    feature_text]. *)
Definition feature_name_of (feature_text : string) : string :=
  if Py.contains ":" feature_text
  then hd EmptyString (Py.split ":" feature_text)
  else feature_text.

(** [flow_type.value if flow_type else "general"]: a member of the
    enumeration is true. *)
Definition flow_type_of (flow_type : option FlowType) : string :=
  match flow_type with
  | Some f => value f
  | None => "general"
  end.

(** The metadata stored with a feedback document. *)
Definition feedback_metadata (persona_name feature_text : string)
    (score : PrimFloat.float) (feedback_id : string) : json.value :=
  json.Dict
    [ ("persona", json.Str persona_name);
      ("feature", json.Str feature_text);
      ("score", json.Float score);
      ("type", json.Str "feedback");
      ("original_id", json.Str feedback_id) ].

(** One round of the loop over the personas, from the list [results]
    built so far. *)
Definition persona_round (client feature_text : string)
    (image_path : option string) (model_name context ux_principles : string)
    (results : list PersonaResult) (persona_name : string)
  : M (list PersonaResult) :=
  match personas_get personas persona_name with
  | None =>
      warning (Py.cat [ "Persona "; persona_name; " not found, skipping" ]) ;;
      ret results
  | Some persona =>
      (* prepare the test query *)
      image_analysis <-
        (if path_truthy image_path
         then analyze_image (path_or_empty image_path) MODEL_NAME
         else ret EmptyString) ;;
      let query :=
        test_query_template
          (pname persona) (pdescription persona)
          (pcharacteristics persona) feature_text
          (Py.cat [ Py.nl; "Visual Analysis:"; Py.nl; image_analysis ])
          context ux_principles in
      (* get feedback *)
      feedback <- send_request client query ;;
      (* calculate the usability score *)
      score <- calculate_usability_score feedback model_name ;;
      (* format the feedback summary *)
      summary <- format_feedback_summary feedback model_name ;;
      let results :=
        results ++
          [ mkResult persona_name
              (mkScore score (get_usability_rating score))
              summary feedback ] in
      (* store the results in ChromaDB *)
      t <- now ;;
      let feedback_id := uuid4 env t in
      tick (EvUuid feedback_id) ;;
      chroma_manager_add_documents [ feedback ]
        [ feedback_metadata persona_name feature_text score feedback_id ]
        [ feedback_id ] ;;
      ret results
  end.

(** The [for] loop. *)
Fixpoint persona_loop (client feature_text : string)
    (image_path : option string) (model_name context ux_principles : string)
    (results : list PersonaResult) (names : list string)
  : M (list PersonaResult) :=
  match names with
  | [] => ret results
  | persona_name :: rest =>
      results' <-
        persona_round client feature_text image_path model_name context
          ux_principles results persona_name ;;
      persona_loop client feature_text image_path model_name context
        ux_principles results' rest
  end.

(** The body of the [try] block of [run_feature_test]. *)
Definition run_feature_test_body (feature_text : string)
    (flow_type : option FlowType) (image_path : option string)
    (persona_names : option (list string)) (model_name : string)
  : M Report :=
  client <- create_model_client model_name ;;
  (* Step 1: generate context from text and image *)
  context_query <-
    generate_context_keywords feature_text image_path model_name ;;
  (* Step 2: retrieve context from ChromaDB *)
  context <- retrieve_context context_query ;;
  (* Step 3: get UX principles if a flow type is provided *)
  let ux_principles := principle_lines flow_type in
  results <-
    persona_loop client feature_text image_path model_name context
      ux_principles [] (persona_names_or_default persona_names) ;;
  ret (mkReport (feature_name_of feature_text) (flow_type_of flow_type)
         results).

Definition run_feature_test (feature_text : string)
    (flow_type : option FlowType) (image_path : option string)
    (persona_names : option (list string)) (model_name : string)
  : M Report :=
  try_except
    (run_feature_test_body feature_text flow_type image_path persona_names
       model_name)
    Py.Exception
    (fun e =>
       ret (mkReport (feature_name_of feature_text)
              (flow_type_of flow_type) [])).

End pipeline.

(** *** [extract_flow_type_from_text] *)




(** *** Calls of [run_feature_test]

    The parameters of [run_feature_test].  When a call is bound to
    them the interpreter looks at the keyword arguments first: one that
    names no parameter is a [TypeError]. *)
Definition run_feature_test_parameters : list string :=
  [ "feature_text"; "flow_type"; "image_path"; "persona_names";
    "model_name" ].

Fixpoint unexpected_keyword (name : string)
    (parameters keywords : list string) : option Py.exn :=
  match keywords with
  | [] => None
  | k :: rest =>
      if existsb (String.eqb k) parameters
      then unexpected_keyword name parameters rest
      else Some (Py.mkExn Py.TypeError
                   (Py.cat [ name;
                             "() got an unexpected keyword argument '";
                             k; "'" ]))
  end.

(** *** The command line *)






Section entry_points.
Variable env : Env.
Variable MODEL_NAME : string.



(** Building a [MerchantFeedbackSystem]: the Chroma client and its
    collection, which [vector_store_failure] makes fail or not, then
    the model client. *)
Variable vector_store_failure : nat -> option Py.exn.

Definition MerchantFeedbackSystem (model_name : string) : M unit :=
  t <- now ;;
  match vector_store_failure t with
  | Some e => raise e
  | None =>
      _ <- create_model_client env model_name ;;
      ret tt
  end.

(** [test_merchant_feedback]: the call of [run_feature_test] has four
    positional arguments and the keyword [n_results]; [rest] stands
    for what follows the look at the keywords: the rest of the call
    and the printing of its result. *)
Definition test_merchant_feedback (rest : M unit) : M unit :=
  try_except
    (MerchantFeedbackSystem "Azure-gpt-model" ;;
     match unexpected_keyword "run_feature_test"
             run_feature_test_parameters [ "n_results" ] with
     | Some e => raise e
     | None => rest
     end)
    Py.Exception
    (fun e => raise e).

End entry_points.

End test_merchant_feedback.

(* ===================================================================== *)
(** ** Test doubles *)
(* ===================================================================== *)

Module Doubles.
Import Effects.

(** An imaging library with one image. *)
Definition one_image : PIL :=
  mkPIL (fun (i : unit) (_ : Z * Z) => i) (fun _ => (512, 512)%Z)
    (fun _ => "RGB") (fun _ => "PNG") (fun _ => "aGVsbG8=").

(** A JSON object with the five categories the structuring prompt asks
    for. *)
Definition five_category_json : string :=
  let entry (k : string) :=
    Py.cat [ Py.dq; k; Py.dq; ": {"; Py.dq; "summary"; Py.dq; ": ";
             Py.dq; "fine"; Py.dq; ", "; Py.dq; "quote"; Py.dq; ": ";
             Py.dq; "it works"; Py.dq; "}" ] in
  Py.cat [ "{"; entry "Value Offering"; ", "; entry "Feature Usefulness";
           ", "; entry "Ease of Use"; ", "; entry "Discoverability"; ", ";
           entry "Design Appeal"; "}" ].

(** A model that answers the scoring prompt with [score_reply], the
    structuring prompt with [summary_reply] and any other prompt with a
    line of feedback. *)
Definition scripted_model (score_reply summary_reply : string)
    (t : nat) (model_name prompt : string) : Py.res string :=
  if Py.contains "Only return the numerical score" prompt
  then Py.Ok score_reply
  else if Py.contains "Return ONLY a valid JSON object" prompt
  then Py.Ok summary_reply
  else Py.Ok "The checkout is quick, but I could not find the coupon field.".

(** The result of a query on a collection without documents. *)
Definition empty_result : json.value :=
  json.Dict
    [ ("ids", json.List [ json.List [] ]);
      ("embeddings", json.Null);
      ("documents", json.List [ json.List [] ]);
      ("metadatas", json.List [ json.List [] ]);
      ("distances", json.List [ json.List [] ]) ].

(** The result of a query that found two documents. *)
Definition populated_result : json.value :=
  json.Dict
    [ ("ids", json.List [ json.List [ json.Str "a"; json.Str "b" ] ]);
      ("embeddings", json.Null);
      ("documents",
        json.List
          [ json.List [ json.Str "Merchants ask for UPI.";
                        json.Str "Refunds are slow." ] ]);
      ("metadatas", json.List [ json.List [ json.Dict []; json.Dict [] ] ]);
      ("distances",
        json.List [ json.List [ json.Float 0.25; json.Float 0.5 ] ]) ].

Definition store_down : Py.exn :=
  Py.mkExn Py.Exception "vector store unreachable".

(** A healthy environment on an empty collection. *)
Definition healthy (score_reply summary_reply : string) : Env :=
  mkEnv one_image
    (fun _ _ => None)
    (scripted_model score_reply summary_reply)
    (fun _ => false)
    (fun t => Py.cat [ "id-"; Py.str_of_int (Z.of_nat t) ])
    (fun _ _ _ _ => None)
    (fun _ => Py.Ok 0%Z)
    (fun _ _ _ => Py.Ok empty_result).

Definition env_ok : Env := healthy "4.2" five_category_json.

(** The same with a collection that holds documents. *)
Definition env_populated : Env :=
  mkEnv one_image (client_failure env_ok) (completion env_ok)
    (path_exists env_ok) (uuid4 env_ok) (add_failure env_ok) (count env_ok)
    (fun _ _ _ => Py.Ok populated_result).

(** The same with a store whose queries fail. *)
Definition env_query_down : Env :=
  mkEnv one_image (client_failure env_ok) (completion env_ok)
    (path_exists env_ok) (uuid4 env_ok) (add_failure env_ok) (count env_ok)
    (fun _ _ _ => Py.Raise store_down).

(** The same with a store that refuses the feedback of the first
    persona and would accept any other document. *)
Definition env_write_down : Env :=
  mkEnv one_image (client_failure env_ok) (completion env_ok)
    (path_exists env_ok) (uuid4 env_ok)
    (fun _ _ metadatas _ =>
       match metadatas with
       | [ json.Dict d ] =>
           match json.dict_get d "persona" with
           | Some (json.Str "internet_first_entrepreneur") => Some store_down
           | _ => None
           end
       | _ => None
       end)
    (count env_ok)
    (query_result env_ok).

Definition both_personas : option (list string) :=
  Some [ "internet_first_entrepreneur"; "hybrid_emerging_business" ].

End Doubles.

(* ===================================================================== *)
(** * Properties *)
(* ===================================================================== *)

(** ** Comparisons of floats *)

Section FloatOrder.

Local Open Scope float_scope.

Lemma ltb_leb (x y : float) : (x <? y) = true -> (x <=? y) = true.
Proof.
  rewrite ltb_spec, leb_spec. unfold SFltb, SFleb.
  destruct (SFcompare _ _) as [[]|]; congruence.
Qed.

Lemma SFleb_trans (a b c : spec_float) :
  SFleb a b = true -> SFleb b c = true -> SFleb a c = true.
Proof.
  unfold SFleb.
  destruct a as [sa|sa| |sa ma ea], b as [sb|sb| |sb mb eb],
           c as [sc|sc| |sc mc ec]; simpl;
    try discriminate; try reflexivity;
    repeat match goal with s : bool |- _ => destruct s end; simpl;
    try discriminate; try reflexivity;
    rewrite ?Pos.compare_cont_spec; simpl;
    repeat match goal with
      | |- context [Z.compare ?x ?y] => destruct (Z.compare_spec x y)
      | |- context [Pos.compare ?x ?y] => destruct (Pos.compare_spec x y)
      end; simpl; try discriminate; try reflexivity; intros; lia.
Qed.

Lemma leb_trans (x y z : float) :
  (x <=? y) = true -> (y <=? z) = true -> (x <=? z) = true.
Proof. rewrite !leb_spec. apply SFleb_trans. Qed.

(** [max(1.0, min(5.0, score))] lies between 1.0 and 5.0, whatever the
    score: a number, an infinity or a NaN. *)
Lemma clamp_range (s : float) :
  (1.0 <=? Py.max 1.0 (Py.min 5.0 s)) = true
  /\ (Py.max 1.0 (Py.min 5.0 s) <=? 5.0) = true.
Proof.
  unfold Py.max, Py.min.
  destruct (s <? 5.0) eqn:E1.
  - destruct (1.0 <? s) eqn:E2.
    + split; apply ltb_leb; assumption.
    + split; reflexivity.
  - split; reflexivity.
Qed.

End FloatOrder.

(** ** The UX principle catalogue *)

Section Catalogue.
Import ux_principles.

(** The lists of the catalogue, flow by flow. *)
Definition principles_of (f : FlowType) : list UXPrinciple :=
  match f with
  | CHECKOUT => CHECKOUT_principles
  | PAYMENT => PAYMENT_principles
  | ONBOARDING => ONBOARDING_principles
  | DASHBOARD => DASHBOARD_principles
  | ANALYTICS => ANALYTICS_principles
  | GENERAL => GENERAL_principles
  | ETHICAL => ETHICAL_principles
  | VISUAL => VISUAL_principles
  | PRICING => PRICING_principles
  | CONTENT => CONTENT_principles
  | GAMIFICATION => GAMIFICATION_principles
  | CART => CART_principles
  end.

Lemma new_manager_get (f : FlowType) :
  dict_get (principles new_manager) f = principles_of f.
Proof. destruct f; reflexivity. Qed.

(** C9.  [get_principles_for_flow] returns the list of the flow followed
    by the GENERAL, ETHICAL, VISUAL, PRICING, CONTENT, GAMIFICATION and
    CART lists, nothing removed: its length is the sum of the eight
    lengths (for every manager, and for CHECKOUT in the catalogue of the
    source), and a principle occurs in it as often as in the eight lists
    together. *)
Theorem get_principles_for_flow_concat :
  (forall f : FlowType,
      get_principles_for_flow new_manager f
      = principles_of f ++ GENERAL_principles ++ ETHICAL_principles
        ++ VISUAL_principles ++ PRICING_principles ++ CONTENT_principles
        ++ GAMIFICATION_principles ++ CART_principles)
  /\ (forall (self : UXPrinciplesManager) (f : FlowType),
         let get := dict_get (principles self) in
         length (get_principles_for_flow self f)
         = (length (get f) + length (get GENERAL) + length (get ETHICAL)
            + length (get VISUAL) + length (get PRICING)
            + length (get CONTENT) + length (get GAMIFICATION)
            + length (get CART))%nat)
  /\ length (get_principles_for_flow new_manager CHECKOUT)
     = (length CHECKOUT_principles + length GENERAL_principles
        + length ETHICAL_principles + length VISUAL_principles
        + length PRICING_principles + length CONTENT_principles
        + length GAMIFICATION_principles + length CART_principles)%nat
  /\ (forall (f : FlowType) (keep : UXPrinciple -> bool),
         let n l := length (filter keep l) in
         n (get_principles_for_flow new_manager f)
         = (n (principles_of f) + n GENERAL_principles
            + n ETHICAL_principles + n VISUAL_principles
            + n PRICING_principles + n CONTENT_principles
            + n GAMIFICATION_principles + n CART_principles)%nat).
Proof.
  assert (E : forall f, get_principles_for_flow new_manager f
      = principles_of f ++ GENERAL_principles ++ ETHICAL_principles
        ++ VISUAL_principles ++ PRICING_principles ++ CONTENT_principles
        ++ GAMIFICATION_principles ++ CART_principles).
  { intro f. unfold get_principles_for_flow.
    rewrite !new_manager_get. reflexivity. }
  split; [exact E|]. split; [|split].
  - intros self f get. unfold get_principles_for_flow.
    rewrite !length_app. fold get. lia.
  - rewrite E, !length_app. simpl principles_of. lia.
  - intros f keep n. unfold n. rewrite E, !filter_app, !length_app. lia.
Qed.

End Catalogue.

(** ** Ratings *)

Section Rating.
Import test_merchant_feedback.
Local Open Scope float_scope.

(** The table of the specification: the rating of the first row whose
    threshold the score reaches, top down. *)
Definition rating_table : list (float * string) :=
  [ (4.5, "Excellent"); (4.0, "Very Good"); (3.5, "Good"); (3.0, "Fair");
    (2.5, "Poor") ].

Fixpoint first_matching_rule (table : list (float * string)) (s : float)
  : string :=
  match table with
  | (threshold, r) :: rest =>
      if threshold <=? s then r else first_matching_rule rest s
  | [] => "Very Poor"
  end.

(** The ratings, from worst to best. *)
Definition rating_rank (r : string) : nat :=
  if String.eqb r "Excellent" then 5
  else if String.eqb r "Very Good" then 4
  else if String.eqb r "Good" then 3
  else if String.eqb r "Fair" then 2
  else if String.eqb r "Poor" then 1
  else 0.

(** C4, as the code has it.  [get_usability_rating] is the first matching
    rule of the table, it never decreases when the score increases, and
    it sends 4.5 to Excellent, 4.49 to Very Good and 1.0 to Very Poor. *)
Theorem get_usability_rating_step (s1 s2 : float) :
  get_usability_rating s1 = first_matching_rule rating_table s1
  /\ ((s1 <=? s2) = true ->
      (rating_rank (get_usability_rating s1)
       <= rating_rank (get_usability_rating s2))%nat)
  /\ get_usability_rating 4.5 = "Excellent"
  /\ get_usability_rating 4.49 = "Very Good"
  /\ get_usability_rating 1.0 = "Very Poor".
Proof.
  split; [reflexivity|]. split; [|repeat split; reflexivity].
  intro H. unfold get_usability_rating.
  assert (T : forall t, (t <=? s1) = true -> (t <=? s2) = true)
    by (intros t Ht; exact (leb_trans Ht H)).
  destruct (4.5 <=? s1) eqn:A5;
    [rewrite (T _ A5); apply Nat.le_refl|].
  destruct (4.0 <=? s1) eqn:A4;
    [rewrite (T _ A4); destruct (4.5 <=? s2); cbv; lia|].
  destruct (3.5 <=? s1) eqn:A3;
    [rewrite (T _ A3); destruct (4.5 <=? s2), (4.0 <=? s2); cbv; lia|].
  destruct (3.0 <=? s1) eqn:A2;
    [rewrite (T _ A2);
     destruct (4.5 <=? s2), (4.0 <=? s2), (3.5 <=? s2); cbv; lia|].
  destruct (2.5 <=? s1) eqn:A1;
    [rewrite (T _ A1);
     destruct (4.5 <=? s2), (4.0 <=? s2), (3.5 <=? s2), (3.0 <=? s2);
     cbv; lia|].
  cbv; lia.
Qed.

Lemma get_usability_rating_step_witness :
  (rating_rank (get_usability_rating 2.75)
   <= rating_rank (get_usability_rating 4.25))%nat.
Proof.
  apply (proj1 (proj2 (get_usability_rating_step 2.75 4.25))).
  reflexivity.
Defined.

(** The score 4.49 reaches the threshold 4.0: its rating is Very Good,
    not Good. *)
Lemma rating_of_4_49_is_not_Good :
  get_usability_rating 4.49 = "Very Good"
  /\ get_usability_rating 4.49 <> "Good".
Proof. split; [reflexivity|]. cbv. discriminate. Qed.

End Rating.

(** ** Computations in [M] *)

Section MonadFacts.
Import Effects.

Lemma bind_ok {A B} (m : M A) (k : A -> M B) w b w' :
  bind m k w = (Py.Ok b, w') ->
  exists a w1, m w = (Py.Ok a, w1) /\ k a w1 = (Py.Ok b, w').
Proof.
  unfold bind. destruct (m w) as [[a|e] w1]; intro H.
  - exists a, w1. split; [reflexivity|exact H].
  - discriminate.
Qed.

Lemma bind_step {A B} (m : M A) (k : A -> M B) w a w1 :
  m w = (Py.Ok a, w1) -> bind m k w = k a w1.
Proof. unfold bind. intros ->. reflexivity. Qed.

Lemma bind_raise {A B} (m : M A) (k : A -> M B) w e w1 :
  m w = (Py.Raise e, w1) -> bind m k w = (Py.Raise e, w1).
Proof. unfold bind. intros ->. reflexivity. Qed.

Lemma isinstance_Exception (e : Py.exn) : Py.isinstance e Py.Exception = true.
Proof. reflexivity. Qed.

(** A handler for [Exception] that returns makes the whole statement
    return. *)
Lemma try_except_returns {A} (m : M A) (h : Py.exn -> M A) w :
  (forall e w1, exists a w2, h e w1 = (Py.Ok a, w2)) ->
  exists a w', try_except m Py.Exception h w = (Py.Ok a, w').
Proof.
  intro Hh. unfold try_except.
  destruct (m w) as [[a|e] w1]; [now exists a, w1|].
  rewrite isinstance_Exception. apply Hh.
Qed.

(** The only exception of the decoder. *)
Lemma loads_raises (s : string) (e : Py.exn) :
  json.loads s = Py.Raise e -> e = json.decode_error.
Proof.
  unfold json.loads.
  destruct (Py.startswith s _); [congruence|].
  destruct (json.scan_once _ _) as [[v r]|]; [|congruence].
  destruct (json.skip_ws r); congruence.
Qed.

End MonadFacts.

(** Running a computation up to its next call to an oracle. *)
Ltac mstep :=
  cbv beta iota zeta delta
    [Effects.bind Effects.ret Effects.raise Effects.lift Effects.try_except
     Effects.try_except_pure Effects.now Effects.tick Effects.warning
     Py.isinstance Py.exn_cls Py.is_ok
     test_merchant_feedback.create_model_client
     test_merchant_feedback.send_request
     test_merchant_feedback.builtin_float
     test_merchant_feedback.load_local
     test_merchant_feedback.chroma_manager_query
     test_merchant_feedback.chroma_manager_add_documents
     chroma_setup.query chroma_setup.add_documents];
  cbn [Effects.clock Effects.trace].

(** ** Image analysis *)

Section ImageAnalysis.
Import Effects test_merchant_feedback.

Lemma analyze_image_raises_at_once (env : Env)
    (image_path model_name : string) (w : World) :
  analyze_image env image_path model_name w = (Py.Ok EmptyString, w).
Proof. reflexivity. Qed.

(** C10.  [analyze_image] returns the empty string for every path and
    model, and calls nothing on the way: reading [img] raises before
    anything else happens, and the handler returns the empty string.  The
    image blocks of the prompts are therefore their bare headings. *)
Theorem analyze_image_empty (env : Env) (image_path model_name : string)
    (w : World) :
  analyze_image env image_path model_name w = (Py.Ok EmptyString, w)
  /\ bind (analyze_image env image_path model_name)
       (fun image_analysis => ret (image_context_of image_analysis)) w
     = (Py.Ok (Py.cat [ Py.nl; "Visual Design Analysis:"; Py.nl ]), w)
  /\ bind (analyze_image env image_path model_name)
       (fun image_analysis =>
          ret (Py.cat [ Py.nl; "Visual Analysis:"; Py.nl; image_analysis ])) w
     = (Py.Ok (Py.cat [ Py.nl; "Visual Analysis:"; Py.nl ]), w).
Proof.
  split; [apply analyze_image_raises_at_once|].
  split; unfold bind; rewrite analyze_image_raises_at_once; reflexivity.
Qed.

End ImageAnalysis.

(** ** Scoring *)

Section Scoring.
Import Effects test_merchant_feedback.
Local Open Scope float_scope.

(** C3.  [calculate_usability_score] always returns a score between 1.0
    and 5.0: the clamped number when the reply of the model reads as a
    float, and 3.0 when it does not or when the client or the request
    fails. *)
Theorem calculate_usability_score_range (env : Env)
    (response model_name : string) (w : World) :
  exists s w',
    calculate_usability_score env response model_name w = (Py.Ok s, w')
    /\ (1.0 <=? s) = true /\ (s <=? 5.0) = true
    /\ s = match client_failure env (clock w) model_name,
                 completion env (S (clock w)) model_name
                   (scoring_prompt response)
           with
           | None, Py.Ok reply =>
               match PyFloat.float_of_string (Py.strip reply) with
               | Some f => Py.max 1.0 (Py.min 5.0 f)
               | None => 3.0
               end
           | _, _ => 3.0
           end.
Proof.
  unfold calculate_usability_score. mstep.
  destruct (client_failure env (clock w) model_name) as [e|]; mstep.
  { eexists _, _. repeat split; reflexivity. }
  destruct (completion env (S (clock w)) model_name _) as [reply|e]; mstep.
  2:{ eexists _, _. repeat split; reflexivity. }
  destruct (PyFloat.float_of_string (Py.strip reply)) as [f|]; mstep.
  - eexists _, _. split; [reflexivity|].
    destruct (clamp_range f) as [L U]. repeat split; assumption.
  - eexists _, _. repeat split; reflexivity.
Qed.

End Scoring.

(** ** The structured summary *)

Section Summary.
Import Effects test_merchant_feedback.

(** The five categories of the structuring prompt. *)
Definition five_categories : list string :=
  [ "Value Offering"; "Feature Usefulness"; "Ease of Use";
    "Discoverability"; "Design Appeal" ].

Definition placeholder_entry : json.value :=
  json.Dict [ ("summary", json.Str "Error processing feedback");
              ("quote", json.Str "N/A") ].

(** What the structuring step makes of a reply: the value the cleaned
    reply decodes to; failing that, the value its part between the
    outermost braces decodes to; failing that, the default summary. *)
Inductive summary_of_reply (reply : string) : json.value -> Prop :=
| parsed_directly (j : json.value) :
    json.loads (clean_response reply) = Py.Ok j ->
    summary_of_reply reply j
| parsed_between_braces (e : Py.exn) (part : string) (j : json.value) :
    json.loads (clean_response reply) = Py.Raise e ->
    extracted_json (clean_response reply) = Some part ->
    json.loads part = Py.Ok j ->
    summary_of_reply reply j
| no_braces (e : Py.exn) :
    json.loads (clean_response reply) = Py.Raise e ->
    extracted_json (clean_response reply) = None ->
    summary_of_reply reply create_default_summary
| nothing_parses (e e' : Py.exn) (part : string) :
    json.loads (clean_response reply) = Py.Raise e ->
    extracted_json (clean_response reply) = Some part ->
    json.loads part = Py.Raise e' ->
    summary_of_reply reply create_default_summary.

(** The summary returned in a healthy environment whose model answers
    the structuring prompt with [reply]. *)
Definition summary_for (reply : string) : Py.res json.value :=
  fst (format_feedback_summary (Doubles.healthy "4.2" reply)
         "The checkout is quick." "Azure-gpt-4" initial).

Definition fenced (text : string) : string :=
  Py.cat [ "```json"; Py.nl; text; Py.nl; "```" ].

Definition with_prose (text : string) : string :=
  Py.cat [ "Here is the summary you asked for:"; Py.nl; text; Py.nl;
           "Let me know if you need anything else." ].

(** The value [Doubles.five_category_json] decodes to. *)
Definition five_category_value : json.value :=
  let entry :=
    json.Dict [ ("summary", json.Str "fine");
                ("quote", json.Str "it works") ] in
  json.Dict (map (fun k => (k, entry)) five_categories).

(** C2, as the code has it.  [format_feedback_summary] never raises.  It
    returns what the reply of the model decodes to, unchecked, or the
    default summary: five entries that read "Error processing feedback"
    with the quote "N/A".  A reply that holds the five categories comes
    back with these five keys, be it bare, fenced or wrapped in prose; a
    reply that is no JSON at all gives the default summary. *)
Theorem format_feedback_summary_total (env : Env)
    (feedback model_name : string) (w : World) :
  (exists v w',
      format_feedback_summary env feedback model_name w = (Py.Ok v, w')
      /\ match client_failure env (clock w) model_name,
               completion env (S (clock w)) model_name
                 (summary_prompt feedback)
         with
         | None, Py.Ok reply => summary_of_reply reply v
         | _, _ => v = create_default_summary
         end)
  /\ (exists d,
         create_default_summary = json.Dict d
         /\ length d = 5%nat
         /\ Forall (fun kv => snd kv = placeholder_entry) d)
  /\ (exists v,
         summary_for Doubles.five_category_json = Py.Ok v
         /\ summary_for (fenced Doubles.five_category_json) = Py.Ok v
         /\ summary_for (with_prose Doubles.five_category_json) = Py.Ok v
         /\ json.keys v = five_categories)
  /\ summary_for "I am sorry, I cannot summarise this feedback."
     = Py.Ok create_default_summary.
Proof.
  split; [|split; [|split]].
  - unfold format_feedback_summary. mstep.
    destruct (client_failure env (clock w) model_name) as [e|]; mstep.
    { eexists _, _. split; reflexivity. }
    destruct (completion env (S (clock w)) model_name _) as [reply|e]; mstep.
    2:{ eexists _, _. split; reflexivity. }
    destruct (json.loads (clean_response reply)) as [j|e] eqn:L1; mstep.
    { eexists _, _. split; [reflexivity|]. now apply parsed_directly. }
    rewrite (loads_raises L1). mstep.
    destruct (extracted_json (clean_response reply)) as [part|] eqn:X.
    2:{ eexists _, _. split; [reflexivity|]. now apply no_braces with e. }
    destruct (json.loads part) as [j|e'] eqn:L2; mstep.
    { eexists _, _. split; [reflexivity|].
      now apply parsed_between_braces with e part. }
    rewrite (loads_raises L2). mstep.
    eexists _, _. split; [reflexivity|].
    now apply nothing_parses with e e' part.
  - eexists. split; [reflexivity|]. split; [reflexivity|].
    repeat constructor.
  - exists five_category_value. repeat split; vm_compute; reflexivity.
  - vm_compute. reflexivity.
Qed.

(** A well-formed JSON reply is returned as it is: the empty object comes
    back without any key; and the default summary, returned for a reply
    that is no JSON, does not bear the five category names either. *)
Lemma format_feedback_summary_other_keys :
  (summary_for "{}" = Py.Ok (json.Dict [])
   /\ json.keys (json.Dict []) <> five_categories)
  /\ (summary_for "I am sorry, I cannot summarise this feedback."
      = Py.Ok create_default_summary
      /\ json.keys create_default_summary <> five_categories).
Proof.
  split; split; try (vm_compute; reflexivity); cbv; discriminate.
Qed.

End Summary.

(** ** The report *)

Section ReportShape.
Import Effects test_merchant_feedback ux_principles.

(** The text before the first colon; the whole text when there is
    none. *)
Fixpoint before_first_colon (s : string) : string :=
  match s with
  | EmptyString => EmptyString
  | String c s' =>
      if Ascii.eqb c ":"%char then EmptyString
      else String c (before_first_colon s')
  end.

Lemma split_head (s : string) :
  hd EmptyString (Py.split ":" s) = before_first_colon s.
Proof.
  induction s as [|c s IH]; simpl; [reflexivity|].
  destruct (Ascii.eqb c ":"); [reflexivity|].
  destruct (Py.split ":" s) as [|h t]; simpl in *; congruence.
Qed.

Lemma find_from_lower (sub s : string) (i : Z) :
  (0 <= i)%Z -> (Py.find_from i sub s = -1 \/ i <= Py.find_from i sub s)%Z.
Proof.
  revert i. induction s as [|c s IH]; intros i Hi; simpl;
    destruct (Py.startswith _ sub); try (right; lia); [left; reflexivity|].
  destruct (IH (i + 1)%Z ltac:(lia)); [left; assumption|right; lia].
Qed.

Lemma no_colon (s : string) (i : Z) :
  (0 <= i)%Z -> (Py.find_from i ":" s < 0)%Z -> before_first_colon s = s.
Proof.
  revert i. induction s as [|c s IH]; intros i Hi H; [reflexivity|].
  cbn [Py.find_from] in H. unfold Py.startswith in H.
  cbn [Py.drop_prefix] in H. cbn [before_first_colon].
  rewrite (Ascii.eqb_sym c ":"%char).
  destruct (Ascii.eqb ":" c).
  - lia.
  - f_equal. apply (IH (i + 1)%Z); [lia|exact H].
Qed.

Lemma feature_name_of_spec (feature_text : string) :
  feature_name_of feature_text = before_first_colon feature_text.
Proof.
  unfold feature_name_of, Py.contains, Py.find.
  destruct (0 <=? Py.find_from 0 ":" feature_text)%Z eqn:E.
  - apply split_head.
  - symmetry. apply (@no_colon _ 0%Z); lia.
Qed.

(** C7.  [run_feature_test] always returns a report.  Its feature name is
    the text before the first colon of the feature text, its flow type
    the value of the flow type given or "general"; and when the body of
    the function raises, whatever the exception and wherever it comes
    from, the report has no test result. *)
Theorem run_feature_test_never_raises (env : Env) (MODEL_NAME : string)
    (feature_text : string) (flow : option FlowType)
    (image_path : option string) (persona_names : option (list string))
    (model_name : string) (w : World) :
  exists report w',
    run_feature_test env MODEL_NAME feature_text flow image_path
      persona_names model_name w = (Py.Ok report, w')
    /\ feature_name report = before_first_colon feature_text
    /\ flow_type report
       = match flow with Some f => value f | None => "general" end
    /\ (forall e w1,
           run_feature_test_body env MODEL_NAME feature_text flow image_path
             persona_names model_name w = (Py.Raise e, w1) ->
           test_results report = [] /\ w' = w1).
Proof.
  unfold run_feature_test, try_except.
  destruct (run_feature_test_body _ _ _ _ _ _ _ w) as [[report|e] w1] eqn:B.
  - exists report, w1. split; [reflexivity|].
    unfold run_feature_test_body in B.
    repeat (apply bind_ok in B; destruct B as (? & ? & _ & B)).
    unfold ret in B. injection B as <- <-.
    cbn [feature_name flow_type test_results].
    split; [apply feature_name_of_spec|].
    split; [reflexivity|]. intros; discriminate.
  - rewrite isinstance_Exception. eexists _, _. split; [reflexivity|].
    cbn [feature_name flow_type test_results].
    split; [apply feature_name_of_spec|].
    split; [reflexivity|].
    intros e' w2 [= _ <-]. split; reflexivity.
Qed.

Lemma run_feature_test_never_raises_witness :
  exists report w',
    run_feature_test Doubles.env_query_down "Azure-gpt-4"
      "Checkout Redesign: one-page mobile checkout" (Some CHECKOUT) None
      Doubles.both_personas "Azure-gpt-4" initial = (Py.Ok report, w')
    /\ feature_name report = "Checkout Redesign"
    /\ flow_type report = "checkout"
    /\ test_results report = [].
Proof.
  destruct (run_feature_test_never_raises Doubles.env_query_down
              "Azure-gpt-4" "Checkout Redesign: one-page mobile checkout"
              (Some CHECKOUT) None Doubles.both_personas "Azure-gpt-4"
              initial) as (report & w' & R & N & F & E).
  exists report, w'. repeat split; try assumption.
  eapply E. vm_compute. reflexivity.
Defined.

End ReportShape.

(** ** Traces *)

Section Traces.
Import Effects test_merchant_feedback.

(** [emits P m]: whatever [m] does and however it ends, it only adds
    events to the trace, and all of them satisfy [P]. *)
Definition emits {A} (P : event -> Prop) (m : M A) : Prop :=
  forall w r w',
    m w = (r, w') -> exists evs, trace w' = trace w ++ evs /\ Forall P evs.

Lemma emits_ret {A} P (a : A) : emits P (ret a).
Proof.
  intros w r w' [= <- <-]. exists []. now rewrite app_nil_r.
Qed.

Lemma emits_raise {A} P e : emits P (@raise A e).
Proof.
  intros w r w' [= <- <-]. exists []. now rewrite app_nil_r.
Qed.

Lemma emits_lift {A} P (x : Py.res A) : emits P (lift x).
Proof.
  intros w r w' [= <- <-]. exists []. now rewrite app_nil_r.
Qed.

Lemma emits_now P : emits P now.
Proof.
  intros w r w' [= <- <-]. exists []. now rewrite app_nil_r.
Qed.

Lemma emits_tick (P : event -> Prop) ev : P ev -> emits P (tick ev).
Proof.
  intros H w r w' [= <- <-]. exists [ev]. split; [reflexivity|].
  now constructor.
Qed.

Lemma emits_warning (P : event -> Prop) msg :
  P (EvWarning msg) -> emits P (warning msg).
Proof.
  intros H w r w' [= <- <-]. exists [EvWarning msg]. split; [reflexivity|].
  now constructor.
Qed.

Lemma emits_bind {A B} P (m : M A) (k : A -> M B) :
  emits P m -> (forall a, emits P (k a)) -> emits P (bind m k).
Proof.
  intros Hm Hk w r w'. unfold bind.
  destruct (m w) as [[a|e] w1] eqn:E; intro H.
  - destruct (Hm _ _ _ E) as (e1 & T1 & F1).
    destruct (Hk a _ _ _ H) as (e2 & T2 & F2).
    exists (e1 ++ e2). rewrite T2, T1, app_assoc. split; [reflexivity|].
    apply Forall_app. now split.
  - injection H as <- <-. exact (Hm _ _ _ E).
Qed.

Lemma emits_try_except {A} P (m : M A) cls (h : Py.exn -> M A) :
  emits P m -> (forall e, emits P (h e)) -> emits P (try_except m cls h).
Proof.
  intros Hm Hh w r w'. unfold try_except.
  destruct (m w) as [[a|e] w1] eqn:E; intro H.
  - injection H as <- <-. exact (Hm _ _ _ E).
  - destruct (Py.isinstance e cls).
    + destruct (Hm _ _ _ E) as (e1 & T1 & F1).
      destruct (Hh e _ _ _ H) as (e2 & T2 & F2).
      exists (e1 ++ e2). rewrite T2, T1, app_assoc. split; [reflexivity|].
      apply Forall_app. now split.
    + injection H as <- <-. exact (Hm _ _ _ E).
Qed.

(** An event other than a write to the vector store. *)
Definition not_add (ev : event) : Prop :=
  match ev with
  | EvAdd _ _ _ _ => False
  | _ => True
  end.

End Traces.

(** Decomposing a computation along its structure. *)
Ltac emits_steps :=
  repeat first
    [ apply emits_ret | apply emits_raise | apply emits_lift
    | apply emits_now
    | apply emits_tick; exact I
    | apply emits_warning; exact I
    | apply emits_bind; [|intro]
    | apply emits_try_except; [|intro]
    | match goal with
      | |- emits _ (if ?b then _ else _) => destruct b
      | |- emits _ (match ?x with _ => _ end) => destruct x
      end ].

Section QuietSteps.
Import Effects test_merchant_feedback.
Variable env : Env.

Lemma create_model_client_quiet model_name :
  emits not_add (create_model_client env model_name).
Proof. unfold create_model_client. emits_steps. Qed.

Lemma send_request_quiet client prompt :
  emits not_add (send_request env client prompt).
Proof. unfold send_request. emits_steps. Qed.

Lemma analyze_image_quiet image_path model_name :
  emits not_add (analyze_image env image_path model_name).
Proof.
  intros w r w' H.
  rewrite analyze_image_raises_at_once in H.
  injection H as <- <-. exists []. now rewrite app_nil_r.
Qed.

Lemma generate_context_keywords_quiet text image_path model_name :
  emits not_add (generate_context_keywords env text image_path model_name).
Proof.
  unfold generate_context_keywords.
  apply emits_try_except; [|intro; apply emits_ret].
  apply emits_bind; [apply create_model_client_quiet|intro].
  apply emits_bind; [|intro].
  - destruct (_ && _); [|apply emits_ret].
    apply emits_bind; [apply analyze_image_quiet|intro; apply emits_ret].
  - apply emits_bind; [apply send_request_quiet|intro; apply emits_ret].
Qed.

Lemma calculate_usability_score_quiet response model_name :
  emits not_add (calculate_usability_score env response model_name).
Proof.
  unfold calculate_usability_score.
  apply emits_try_except; [|intro; apply emits_ret].
  apply emits_bind; [apply create_model_client_quiet|intro].
  apply emits_bind; [apply send_request_quiet|intro; apply emits_lift].
Qed.

Lemma format_feedback_summary_quiet feedback model_name :
  emits not_add (format_feedback_summary env feedback model_name).
Proof.
  unfold format_feedback_summary.
  apply emits_try_except; [|intro; apply emits_ret].
  apply emits_bind; [apply create_model_client_quiet|intro].
  apply emits_bind; [apply send_request_quiet|intro; apply emits_lift].
Qed.

Lemma retrieve_context_quiet context_query :
  emits not_add (retrieve_context env context_query).
Proof.
  unfold retrieve_context, chroma_manager_query, chroma_setup.query,
    retrieved_docs.
  emits_steps.
Qed.

End QuietSteps.

(** ** The loop over the personas *)

Section Rounds.
Import Effects test_merchant_feedback.
Variable env : Env.
Variable MODEL_NAME : string.

(** Membership in the registry [personas]. *)
Definition known (persona_name : string) : bool :=
  match personas_get personas persona_name with
  | Some _ => true
  | None => false
  end.

Definition skip_warning (persona_name : string) : event :=
  EvWarning (Py.cat [ "Persona "; persona_name; " not found, skipping" ]).

(** The write of a result to the vector store, under the identifier
    [id]. *)
Definition persist_events (feature_text : string) (r : PersonaResult)
    (id : string) : list event :=
  [ EvUuid id;
    EvAdd [ raw_feedback r ]
      [ feedback_metadata (persona r) feature_text
          (score (usability_score r)) id ]
      [ id ] true;
    EvCount ].

(** The events of a loop that produced the results [rs]: for each result
    in turn, the request that brought its feedback and, after it, the
    write of the result; between the writes, no other write. *)
Inductive persisted_in_turn (feature_text : string)
  : list PersonaResult -> list event -> Prop :=
| turn_done (evs : list event) :
    Forall not_add evs -> persisted_in_turn feature_text [] evs
| turn_next (r : PersonaResult) (rs : list PersonaResult)
    (before after : list event) (client prompt id : string) :
    Forall not_add before ->
    In (EvRequest client prompt (Py.Ok (raw_feedback r))) before ->
    persisted_in_turn feature_text rs after ->
    persisted_in_turn feature_text (r :: rs)
      (before ++ persist_events feature_text r id ++ after).

Lemma persisted_after (feature_text : string) (rs : list PersonaResult)
    (quiet evs : list event) :
  Forall not_add quiet ->
  persisted_in_turn feature_text rs evs ->
  persisted_in_turn feature_text rs (quiet ++ evs).
Proof.
  intros Q H. destruct H as [evs F|r rs before after c p id F I H].
  - apply turn_done. apply Forall_app. now split.
  - rewrite app_assoc. eapply turn_next; [| |exact H].
    + apply Forall_app. now split.
    + apply in_or_app. right. exact I.
Qed.

(** The documents written to the store, and the failed writes, of a list
    of events. *)
Fixpoint stored_documents (evs : list event) : list string :=
  match evs with
  | EvAdd documents _ _ true :: rest => documents ++ stored_documents rest
  | _ :: rest => stored_documents rest
  | [] => []
  end.

Definition failed_write (ev : event) : bool :=
  match ev with
  | EvAdd _ _ _ false => true
  | _ => false
  end.

Lemma quiet_stored (evs : list event) :
  Forall not_add evs ->
  stored_documents evs = [] /\ existsb failed_write evs = false.
Proof.
  induction 1 as [|ev evs P _ [IH1 IH2]]; [now split|].
  destruct ev; try contradiction; simpl; now split.
Qed.

Lemma stored_documents_app (a b : list event) :
  stored_documents (a ++ b) = stored_documents a ++ stored_documents b.
Proof.
  induction a as [|ev a IH]; [reflexivity|].
  destruct ev as [| | |d m i [|]| | |]; simpl; rewrite ?IH, ?app_assoc;
    reflexivity.
Qed.

Lemma persisted_stored (feature_text : string) (rs : list PersonaResult)
    (evs : list event) :
  persisted_in_turn feature_text rs evs ->
  stored_documents evs = map raw_feedback rs
  /\ existsb failed_write evs = false.
Proof.
  induction 1 as [evs F|r rs before after c p id F I H [IH1 IH2]].
  - now apply quiet_stored.
  - destruct (quiet_stored F) as [Q1 Q2]. split.
    + rewrite stored_documents_app, Q1. simpl. now rewrite IH1.
    + rewrite existsb_app, Q2. simpl. exact IH2.
Qed.

(** *** What the steps of a round leave in the trace *)

Lemma send_request_ok client prompt w reply w' :
  send_request env client prompt w = (Py.Ok reply, w') ->
  trace w' = trace w ++ [ EvRequest client prompt (Py.Ok reply) ].
Proof.
  unfold send_request. mstep.
  destruct (completion env (clock w) client prompt) as [x|e];
    intros [= <- <-]; reflexivity.
Qed.

Lemma add_documents_ok documents metadatas ids w u w' :
  chroma_setup.add_documents env documents metadatas ids w = (Py.Ok u, w') ->
  trace w' = trace w ++ [ EvAdd documents metadatas ids true; EvCount ].
Proof.
  unfold chroma_setup.add_documents. mstep.
  destruct (add_failure env (clock w) documents metadatas ids); mstep;
    [discriminate|].
  destruct (count env (S (clock w))); mstep; [|discriminate].
  intros [= _ <-]. cbn. now rewrite <- app_assoc.
Qed.

Section OneRun.
Variables (client feature_text : string) (image_path : option string)
  (model_name context ux_principles : string).

Let round :=
  persona_round env MODEL_NAME client feature_text image_path model_name
    context ux_principles.
Let loop :=
  persona_loop env MODEL_NAME client feature_text image_path model_name
    context ux_principles.

(** A persona that is not registered is skipped with a warning. *)
Lemma round_unknown results persona_name w :
  known persona_name = false ->
  round results persona_name w
  = (Py.Ok results,
     mkWorld (clock w) (trace w ++ [ skip_warning persona_name ])).
Proof.
  unfold known, round, persona_round.
  destruct (personas_get personas persona_name); [discriminate|].
  reflexivity.
Qed.

(** A round that returns for a registered persona has added one result
    for it, after writing this result to the store. *)
Lemma round_known results persona_name w results' w' :
  known persona_name = true ->
  round results persona_name w = (Py.Ok results', w') ->
  exists r before prompt id,
    results' = results ++ [ r ]
    /\ persona r = persona_name
    /\ trace w' = trace w ++ before ++ persist_events feature_text r id
    /\ Forall not_add before
    /\ In (EvRequest client prompt (Py.Ok (raw_feedback r))) before.
Proof.
  unfold known, round, persona_round.
  destruct (personas_get personas persona_name) as [p|]; [|discriminate].
  intros _ H.
  apply bind_ok in H. destruct H as (img & w1 & H1 & H).
  apply bind_ok in H. destruct H as (feedback & w2 & H2 & H).
  apply bind_ok in H. destruct H as (sc & w3 & H3 & H).
  apply bind_ok in H. destruct H as (summary & w4 & H4 & H).
  apply bind_ok in H. destruct H as (t & w5 & H5 & H).
  apply bind_ok in H. destruct H as (u & w6 & H6 & H).
  apply bind_ok in H. destruct H as (u' & w7 & H7 & H).
  injection H as <- <-.
  assert (Q1 : exists e1, trace w1 = trace w ++ e1 /\ Forall not_add e1).
  { destruct (path_truthy image_path).
    - exact (analyze_image_quiet H1).
    - exact (@emits_ret _ not_add EmptyString _ _ _ H1). }
  destruct Q1 as (e1 & T1 & F1).
  pose proof (send_request_ok H2) as T2.
  destruct (calculate_usability_score_quiet H3) as (e3 & T3 & F3).
  destruct (format_feedback_summary_quiet H4) as (e4 & T4 & F4).
  injection H5 as <- <-. injection H6 as _ <-.
  apply add_documents_ok in H7. cbn [trace] in H7.
  match type of T2 with
  | _ = _ ++ [ EvRequest _ ?q _ ] =>
      exists (mkResult persona_name
                (mkScore sc (get_usability_rating sc)) summary feedback),
        (e1 ++ [ EvRequest client q (Py.Ok feedback) ] ++ e3 ++ e4),
        q, (uuid4 env (clock w4))
  end.
  split; [reflexivity|]. split; [reflexivity|]. split; [|split].
  - rewrite H7, T4, T3, T2, T1. unfold persist_events.
    cbn [persona raw_feedback usability_score score].
    repeat rewrite <- app_assoc. reflexivity.
  - apply Forall_app. split; [exact F1|]. constructor; [exact I|].
    apply Forall_app. now split.
  - apply in_or_app. right. left. reflexivity.
Qed.

(** A loop that returns has added one result for each registered name,
    in the order of the names, wrote each of them to the store in its
    turn, and warned about each name that is not registered. *)
Lemma loop_returns names : forall results w results' w',
  loop results names w = (Py.Ok results', w') ->
  exists new evs,
    results' = results ++ new
    /\ map persona new = filter known names
    /\ trace w' = trace w ++ evs
    /\ persisted_in_turn feature_text new evs
    /\ (forall n, In n names -> known n = false ->
                  In (skip_warning n) evs).
Proof.
  induction names as [|n names IH]; intros results w results' w' H.
  - injection H as <- <-. exists [], [].
    rewrite !app_nil_r. repeat split; [now apply turn_done|].
    intros ? [].
  - cbn [persona_loop] in H. unfold loop in H. cbn [persona_loop] in H.
    apply bind_ok in H. destruct H as (results1 & w1 & R & L).
    apply IH in L. destruct L as (new2 & evs2 & E2 & P2 & T2 & S2 & W2).
    cbn [filter]. destruct (known n) eqn:K.
    + apply (round_known K) in R.
      destruct R as (r & before & prompt & id & E1 & N1 & T1 & F1 & I1).
      exists (r :: new2), (before ++ persist_events feature_text r id
                             ++ evs2).
      split; [rewrite E2, E1, <- app_assoc; reflexivity|].
      split; [cbn; now rewrite N1, P2|].
      split; [rewrite T2, T1, <- !app_assoc; reflexivity|].
      split; [eapply turn_next; eassumption|].
      intros m [<-|M] U; [congruence|].
      apply in_or_app. right. apply in_or_app. right. now apply W2.
    + fold round in R. rewrite (round_unknown _ _ K) in R.
      injection R as <- <-. cbn [trace] in T2.
      exists new2, ([ skip_warning n ] ++ evs2).
      split; [exact E2|]. split; [exact P2|].
      split; [rewrite T2, <- app_assoc; reflexivity|].
      split.
      * apply persisted_after; [|exact S2]. constructor; [exact I|constructor].
      * intros m [<-|M] U; [left; reflexivity|].
        right. now apply W2.
Qed.

End OneRun.

(** A run whose body returns: the report matches the names given, in
    their order, and every result was written to the store in its turn. *)
Lemma body_returns feature_text flow image_path persona_names model_name
    w report w' :
  run_feature_test_body env MODEL_NAME feature_text flow image_path
    persona_names model_name w = (Py.Ok report, w') ->
  exists evs,
    trace w' = trace w ++ evs
    /\ map persona (test_results report)
       = filter known (persona_names_or_default persona_names)
    /\ persisted_in_turn feature_text (test_results report) evs
    /\ (forall n, In n (persona_names_or_default persona_names) ->
                  known n = false -> In (skip_warning n) evs).
Proof.
  unfold run_feature_test_body. intro H.
  apply bind_ok in H. destruct H as (client & w1 & H1 & H).
  apply bind_ok in H. destruct H as (cq & w2 & H2 & H).
  apply bind_ok in H. destruct H as (context & w3 & H3 & H).
  apply bind_ok in H. destruct H as (results & w4 & H4 & H).
  injection H as <- <-.
  destruct (create_model_client_quiet H1) as (e1 & T1 & F1).
  destruct (generate_context_keywords_quiet H2) as (e2 & T2 & F2).
  destruct (retrieve_context_quiet H3) as (e3 & T3 & F3).
  apply loop_returns in H4.
  destruct H4 as (new & evs & E & P & T & S & W). cbn in E. subst new.
  exists (e1 ++ e2 ++ e3 ++ evs). cbn [test_results].
  split; [rewrite T, T3, T2, T1, <- !app_assoc; reflexivity|].
  split; [exact P|]. split.
  - repeat apply persisted_after; assumption.
  - intros n I U. repeat (apply in_or_app; right). now apply W.
Qed.

End Rounds.

(** ** Whole runs *)

Section Runs.
Import Effects test_merchant_feedback ux_principles.

Lemma run_cases env MODEL_NAME feature_text flow image_path persona_names
    model_name w :
  (exists report w',
      run_feature_test_body env MODEL_NAME feature_text flow image_path
        persona_names model_name w = (Py.Ok report, w')
      /\ run_feature_test env MODEL_NAME feature_text flow image_path
           persona_names model_name w = (Py.Ok report, w'))
  \/ (exists e w',
         run_feature_test_body env MODEL_NAME feature_text flow image_path
           persona_names model_name w = (Py.Raise e, w')
         /\ run_feature_test env MODEL_NAME feature_text flow image_path
              persona_names model_name w
            = (Py.Ok (mkReport (feature_name_of feature_text)
                        (flow_type_of flow) []), w')).
Proof.
  unfold run_feature_test, try_except.
  destruct (run_feature_test_body _ _ _ _ _ _ _ w) as [[report|e] w1].
  - left. now exists report, w1.
  - right. exists e, w1. now rewrite isinstance_Exception.
Qed.

Lemma filter_none {A} (f : A -> bool) (l : list A) :
  Forall (fun x => f x = false) l -> filter f l = [].
Proof.
  induction 1 as [|x l Hx _ IH]; [reflexivity|].
  cbn [filter]. now rewrite Hx.
Qed.

(** C8, as the code has it.  A run always returns a report.  When its
    body returns, the results are those of the registered names among
    the names given, one per occurrence and in the order given, and a
    warning was logged for each name that is not registered.  A list
    that is not empty and names no registered persona gives no result,
    whatever else happens.  An empty or absent list stands for the single
    name internet_first_entrepreneur. *)
Theorem run_feature_test_persona_order (env : Env) (MODEL_NAME : string)
    (feature_text : string) (flow : option FlowType)
    (image_path : option string) (persona_names : option (list string))
    (model_name : string) (w : World) :
  (exists report w',
      run_feature_test env MODEL_NAME feature_text flow image_path
        persona_names model_name w = (Py.Ok report, w')
      /\ (run_feature_test_body env MODEL_NAME feature_text flow image_path
            persona_names model_name w = (Py.Ok report, w') ->
          map persona (test_results report)
          = filter known (persona_names_or_default persona_names)
          /\ forall n, In n (persona_names_or_default persona_names) ->
                       known n = false -> In (skip_warning n) (trace w'))
      /\ (forall n names,
             persona_names = Some (n :: names) ->
             Forall (fun m => known m = false) (n :: names) ->
             test_results report = []))
  /\ persona_names_or_default None = [ "internet_first_entrepreneur" ]
  /\ persona_names_or_default (Some []) = [ "internet_first_entrepreneur" ]
  /\ (forall n names, persona_names_or_default (Some (n :: names)) = n :: names).
Proof.
  split; [|repeat split].
  destruct (run_cases env MODEL_NAME feature_text flow image_path
              persona_names model_name w)
    as [(report & w' & B & R)|(e & w' & B & R)].
  - exists report, w'. split; [exact R|].
    destruct (body_returns B) as (evs & T & P & _ & W). split.
    + intros _. split; [exact P|].
      intros n I U. rewrite T. apply in_or_app. right. now apply W.
    + intros n names -> U. cbn [persona_names_or_default] in P.
      rewrite (filter_none U) in P. now apply map_eq_nil in P.
  - eexists _, _. split; [exact R|]. split.
    + rewrite B. discriminate.
    + reflexivity.
Qed.

Lemma run_feature_test_persona_order_witness :
  exists report w',
    run_feature_test Doubles.env_ok "Azure-gpt-4"
      "Checkout Redesign: one-page mobile checkout" (Some CHECKOUT) None
      (Some [ "does_not_exist"; "hybrid_emerging_business" ]) "Azure-gpt-4"
      initial = (Py.Ok report, w')
    /\ map persona (test_results report) = [ "hybrid_emerging_business" ]
    /\ In (skip_warning "does_not_exist") (trace w').
Proof.
  destruct (proj1 (run_feature_test_persona_order Doubles.env_ok
              "Azure-gpt-4" "Checkout Redesign: one-page mobile checkout"
              (Some CHECKOUT) None
              (Some [ "does_not_exist"; "hybrid_emerging_business" ])
              "Azure-gpt-4" initial)) as (report & w' & R & B & _).
  exists report, w'. split; [exact R|].
  assert (E : run_feature_test_body Doubles.env_ok "Azure-gpt-4"
                "Checkout Redesign: one-page mobile checkout"
                (Some CHECKOUT) None
                (Some [ "does_not_exist"; "hybrid_emerging_business" ])
                "Azure-gpt-4" initial = (Py.Ok report, w')).
  { rewrite <- R. vm_compute. reflexivity. }
  destruct (B E) as [P W]. split; [exact P|].
  apply W; [left; reflexivity|reflexivity].
Defined.

(** An empty list of names is a list without a registered name, and its
    run has one result all the same: that of the default persona. *)
Lemma empty_persona_list_runs_default :
  exists report w',
    run_feature_test Doubles.env_ok "Azure-gpt-4"
      "Checkout Redesign: one-page mobile checkout" (Some CHECKOUT) None
      (Some []) "Azure-gpt-4" initial = (Py.Ok report, w')
    /\ map persona (test_results report) = [ "internet_first_entrepreneur" ]
    /\ length (test_results report) <> length (filter known [])
    /\ Forall (fun m => known m = false) [].
Proof.
  eexists _, _. split; [vm_compute; reflexivity|].
  split; [reflexivity|]. split; [cbn; discriminate|constructor].
Qed.

(** C1, as the code has it.  In a run that made the events [evs]: a write
    to the vector store that fails ends the run with a report without any
    result, those of the personas handled before included; and when the
    body of the run returns, every result of the report was written to
    the store in its turn, after the request that brought its feedback
    and before the request of the next result, so that the documents
    stored are the feedback texts of the results, in order. *)
Theorem write_failure_ends_run (env : Env) (MODEL_NAME : string)
    (feature_text : string) (flow : option FlowType)
    (image_path : option string) (persona_names : option (list string))
    (model_name : string) (w w' : World) (report : Report)
    (evs : list event) :
  run_feature_test env MODEL_NAME feature_text flow image_path
    persona_names model_name w = (Py.Ok report, w') ->
  trace w' = trace w ++ evs ->
  (existsb failed_write evs = true -> test_results report = [])
  /\ (run_feature_test_body env MODEL_NAME feature_text flow image_path
        persona_names model_name w = (Py.Ok report, w') ->
      persisted_in_turn feature_text (test_results report) evs
      /\ stored_documents evs = map raw_feedback (test_results report)).
Proof.
  intros R T.
  destruct (run_cases env MODEL_NAME feature_text flow image_path
              persona_names model_name w)
    as [(report1 & w1 & B & R1)|(e & w1 & B & R1)];
    rewrite R1 in R; injection R as <- <-.
  - destruct (body_returns B) as (evs1 & T1 & _ & S & _).
    rewrite T1 in T. apply app_inv_head in T. subst evs1.
    destruct (persisted_stored S) as [D F]. split.
    + rewrite F. discriminate.
    + intros _. now split.
  - split; [reflexivity|]. rewrite B. discriminate.
Qed.

Lemma write_failure_ends_run_witness :
  exists report w',
    run_feature_test Doubles.env_write_down "Azure-gpt-4"
      "Checkout Redesign: one-page mobile checkout" (Some CHECKOUT) None
      Doubles.both_personas "Azure-gpt-4" initial = (Py.Ok report, w')
    /\ existsb failed_write (trace w') = true
    /\ test_results report = [].
Proof.
  destruct (run_feature_test Doubles.env_write_down "Azure-gpt-4"
              "Checkout Redesign: one-page mobile checkout" (Some CHECKOUT)
              None Doubles.both_personas "Azure-gpt-4" initial)
    as [[report|e] w'] eqn:R; [|vm_compute in R; discriminate].
  exists report, w'. split; [reflexivity|].
  assert (F : existsb failed_write (trace w') = true).
  { vm_compute in R. injection R as _ <-. reflexivity. }
  split; [exact F|].
  apply (proj1 (write_failure_ends_run (evs := trace w') R eq_refl)).
  exact F.
Defined.

(** The store refuses the feedback of the first persona: the run returns
    no result at all, and never asks the second persona, whose feedback
    the store would have accepted. *)
Lemma write_failure_drops_every_persona :
  exists report w',
    run_feature_test Doubles.env_write_down "Azure-gpt-4"
      "Checkout Redesign: one-page mobile checkout" (Some CHECKOUT) None
      Doubles.both_personas "Azure-gpt-4" initial = (Py.Ok report, w')
    /\ test_results report = []
    /\ filter known [ "internet_first_entrepreneur";
                      "hybrid_emerging_business" ]
       = [ "internet_first_entrepreneur"; "hybrid_emerging_business" ]
    /\ length (filter (fun ev => match ev with
                                 | EvRequest _ _ _ => true
                                 | _ => false
                                 end) (trace w')) = 4%nat.
Proof.
  eexists _, _. split; [vm_compute; reflexivity|].
  repeat split.
Qed.

End Runs.

(** ** Context retrieval *)

Section Retrieval.
Import Effects test_merchant_feedback ux_principles.

(** An environment in which every client is built, every request is
    answered and every write is accepted. *)
Record healthy_env (env : Env) : Prop := mkHealthy {
  clients_built : forall t m, client_failure env t m = None;
  requests_answered : forall t m p, Py.is_ok (completion env t m p) = true;
  writes_accepted : forall t d m i, add_failure env t d m i = None;
  counts_answered : forall t, Py.is_ok (count env t) = true
}.

(** A store without documents: every query finds nothing. *)
Definition empty_store (env : Env) : Prop :=
  forall t q n, query_result env t q n = Py.Ok Doubles.empty_result.

Definition returns {A} (m : M A) : Prop :=
  forall w, exists a w', m w = (Py.Ok a, w').

Lemma returns_bind {A B} (m : M A) (k : A -> M B) :
  returns m -> (forall a, returns (k a)) -> returns (bind m k).
Proof.
  intros Hm Hk w. destruct (Hm w) as (a & w1 & E).
  rewrite (bind_step _ E). apply Hk.
Qed.

Lemma returns_ret {A} (a : A) : returns (ret a).
Proof. intro w. now exists a, w. Qed.

Lemma returns_try_except {A} (m : M A) (h : Py.exn -> M A) :
  (forall e, returns (h e)) -> returns (try_except m Py.Exception h).
Proof. intros Hh w. apply try_except_returns. intros e w1. apply Hh. Qed.

Section Steps.
Variable env : Env.
Variable MODEL_NAME : string.

Lemma generate_context_keywords_returns text image_path model_name :
  returns (generate_context_keywords env text image_path model_name).
Proof. apply returns_try_except. intro. apply returns_ret. Qed.

Lemma calculate_usability_score_returns response model_name :
  returns (calculate_usability_score env response model_name).
Proof. apply returns_try_except. intro. apply returns_ret. Qed.

Lemma format_feedback_summary_returns feedback model_name :
  returns (format_feedback_summary env feedback model_name).
Proof. apply returns_try_except. intro. apply returns_ret. Qed.

Lemma analyze_image_returns image_path model_name :
  returns (analyze_image env image_path model_name).
Proof.
  intro w. eexists _, _. apply analyze_image_raises_at_once.
Qed.

(** The query and what the step makes of its result. *)
Lemma retrieve_context_query context_query w :
  retrieve_context env context_query w
  = match query_result env (clock w) context_query 5 with
    | Py.Ok chroma_results =>
        bind (retrieved_docs chroma_results)
          (fun docs => lift (join_values (Py.nl ++ Py.nl) docs))
          (mkWorld (S (clock w))
             (trace w ++ [ EvQuery context_query 5 ]))
    | Py.Raise e =>
        (Py.Raise e,
         mkWorld (S (clock w)) (trace w ++ [ EvQuery context_query 5 ]))
    end.
Proof.
  unfold retrieve_context, chroma_manager_query, chroma_setup.query.
  cbv beta iota zeta delta [bind now tick lift]. cbn [clock trace].
  destruct (query_result env (clock w) context_query 5); reflexivity.
Qed.

Hypothesis healthy : healthy_env env.

Lemma create_model_client_returns model_name :
  returns (create_model_client env model_name).
Proof.
  intro w. unfold create_model_client. mstep.
  rewrite (clients_built healthy). eexists _, _. reflexivity.
Qed.

Lemma send_request_returns client prompt :
  returns (send_request env client prompt).
Proof.
  intro w. unfold send_request. mstep.
  pose proof (requests_answered healthy (clock w) client prompt) as H.
  destruct (completion env (clock w) client prompt); [|discriminate].
  eexists _, _. reflexivity.
Qed.

Lemma add_documents_returns documents metadatas ids :
  returns (chroma_setup.add_documents env documents metadatas ids).
Proof.
  intro w. unfold chroma_setup.add_documents. mstep.
  rewrite (writes_accepted healthy). mstep.
  pose proof (counts_answered healthy (S (clock w))) as H.
  destruct (count env (S (clock w))); [|discriminate].
  eexists _, _. reflexivity.
Qed.

Lemma persona_round_returns client feature_text image_path model_name
    context ux results persona_name :
  returns (persona_round env MODEL_NAME client feature_text image_path
             model_name context ux results persona_name).
Proof.
  unfold persona_round.
  destruct (personas_get personas persona_name).
  - apply returns_bind; [|intro].
    { destruct (path_truthy image_path);
        [apply analyze_image_returns|apply returns_ret]. }
    apply returns_bind; [apply send_request_returns|intro].
    apply returns_bind; [apply calculate_usability_score_returns|intro].
    apply returns_bind; [apply format_feedback_summary_returns|intro].
    apply returns_bind; [intro w; now eexists _, _|intro].
    apply returns_bind; [intro w; now eexists _, _|intro].
    apply returns_bind; [apply add_documents_returns|intro].
    apply returns_ret.
  - intro w. eexists _, _. reflexivity.
Qed.

Lemma persona_loop_returns client feature_text image_path model_name
    context ux names : forall results,
  returns (persona_loop env MODEL_NAME client feature_text image_path
             model_name context ux results names).
Proof.
  induction names as [|n names IH]; intro results; cbn [persona_loop].
  - apply returns_ret.
  - apply returns_bind; [apply persona_round_returns|intro; apply IH].
Qed.

Hypothesis no_document : empty_store env.

Lemma retrieve_context_empty context_query w :
  retrieve_context env context_query w
  = (Py.Ok EmptyString,
     mkWorld (S (clock w)) (trace w ++ [ EvQuery context_query 5 ])).
Proof.
  rewrite retrieve_context_query, no_document. reflexivity.
Qed.

Lemma body_returns_on_empty_store feature_text flow image_path
    persona_names model_name :
  returns (run_feature_test_body env MODEL_NAME feature_text flow
             image_path persona_names model_name).
Proof.
  unfold run_feature_test_body.
  apply returns_bind; [apply create_model_client_returns|intro].
  apply returns_bind; [apply generate_context_keywords_returns|intro].
  apply returns_bind;
    [intro w; eexists _, _; apply retrieve_context_empty|intro].
  apply returns_bind; [apply persona_loop_returns|intro].
  apply returns_ret.
Qed.

End Steps.

(** C6, as the code has it.  The retrieval step gives the documents of
    the first result list joined by blank lines, hence the empty context
    for a result whose list of documents is empty, and the empty context
    with a warning for a result without the expected structure.  An
    exception raised by the store is not handled there: it leaves the
    step, and the run ends with a report without results.  With a store
    that holds no document, in an environment where clients, requests
    and writes succeed, the run has a result for every registered name
    among the names given. *)
Theorem retrieval_outcomes (env : Env) (MODEL_NAME : string) :
  (forall q w d docs others texts,
      query_result env (clock w) q 5 = Py.Ok (json.Dict d) ->
      json.dict_get d "documents"
      = Some (json.List (json.List docs :: others)) ->
      strings_of docs = Py.Ok texts ->
      fst (retrieve_context env q w) = Py.Ok (Py.join (Py.nl ++ Py.nl) texts))
  /\ (forall q w,
         query_result env (clock w) q 5 = Py.Ok Doubles.empty_result ->
         fst (retrieve_context env q w) = Py.Ok EmptyString)
  /\ (forall q w v,
         query_result env (clock w) q 5 = Py.Ok v ->
         v = json.Null \/ v = json.Dict []
         \/ (exists d, v = json.Dict d /\ json.dict_get d "documents" = None) ->
         exists w',
           retrieve_context env q w = (Py.Ok EmptyString, w')
           /\ In (EvWarning
                    "ChromaDB RAG: No documents found or unexpected result structure.")
                (trace w'))
  /\ (forall q w e,
         query_result env (clock w) q 5 = Py.Raise e ->
         fst (retrieve_context env q w) = Py.Raise e)
  /\ (forall feature_text flow image_path persona_names model_name w e,
         (forall t q n, query_result env t q n = Py.Raise e) ->
         exists report w',
           run_feature_test env MODEL_NAME feature_text flow image_path
             persona_names model_name w = (Py.Ok report, w')
           /\ test_results report = [])
  /\ (forall feature_text flow image_path persona_names model_name w,
         healthy_env env -> empty_store env ->
         exists report w',
           run_feature_test env MODEL_NAME feature_text flow image_path
             persona_names model_name w = (Py.Ok report, w')
           /\ map persona (test_results report)
              = filter known (persona_names_or_default persona_names)).
Proof.
  split; [|split; [|split; [|split; [|split]]]].
  - intros q w d docs others texts Q D S.
    rewrite retrieve_context_query, Q.
    unfold retrieved_docs, join_values.
    assert (T : value_truthy (json.Dict d) = true)
      by (destruct d; [discriminate|reflexivity]).
    rewrite T, D. mstep. rewrite S. reflexivity.
  - intros q w Q. rewrite retrieve_context_query, Q. reflexivity.
  - intros q w v Q [->|[->|(d & -> & D)]];
      rewrite retrieve_context_query, Q; unfold retrieved_docs.
    + eexists. split; [reflexivity|]. cbn. apply in_or_app. right.
      left. reflexivity.
    + eexists. split; [reflexivity|]. cbn. apply in_or_app. right.
      left. reflexivity.
    + destruct (value_truthy (json.Dict d)); rewrite ?D;
        (eexists; split; [reflexivity|]); cbn; apply in_or_app; right;
        left; reflexivity.
  - intros q w e Q. rewrite retrieve_context_query, Q. reflexivity.
  - intros feature_text flow image_path persona_names model_name w e Q.
    destruct (run_cases env MODEL_NAME feature_text flow image_path
                persona_names model_name w)
      as [(report & w' & B & R)|(e' & w' & B & R)].
    + exfalso. unfold run_feature_test_body in B.
      apply bind_ok in B. destruct B as (client & w1 & _ & B).
      apply bind_ok in B. destruct B as (cq & w2 & _ & B).
      apply bind_ok in B. destruct B as (context & w3 & B & _).
      rewrite retrieve_context_query, Q in B. discriminate.
    + eexists _, _. split; [exact R|reflexivity].
  - intros feature_text flow image_path persona_names model_name w H E.
    destruct (body_returns_on_empty_store MODEL_NAME H E feature_text flow
                image_path persona_names model_name w) as (report & w' & B).
    exists report, w'. split.
    + unfold run_feature_test, try_except. now rewrite B.
    + destruct (body_returns B) as (evs & _ & P & _). exact P.
Qed.

Lemma env_ok_healthy : healthy_env Doubles.env_ok.
Proof.
  split; try reflexivity.
  intros t m p. cbn. unfold Doubles.scripted_model.
  repeat destruct (Py.contains _ p); reflexivity.
Qed.

Lemma retrieval_outcomes_witness :
  exists report w',
    run_feature_test Doubles.env_ok "Azure-gpt-4"
      "Checkout Redesign: one-page mobile checkout" (Some CHECKOUT) None
      Doubles.both_personas "Azure-gpt-4" initial = (Py.Ok report, w')
    /\ map persona (test_results report)
       = [ "internet_first_entrepreneur"; "hybrid_emerging_business" ].
Proof.
  apply (proj2 (proj2 (proj2 (proj2 (proj2
           (retrieval_outcomes Doubles.env_ok "Azure-gpt-4")))))
           "Checkout Redesign: one-page mobile checkout" (Some CHECKOUT)
           None Doubles.both_personas "Azure-gpt-4" initial).
  - exact env_ok_healthy.
  - intros t q n. reflexivity.
Defined.

(** A populated result gives a context that is not empty; and an
    exception of the store leaves the retrieval step and ends the run
    without feedback for the two registered personas it was given. *)
Lemma store_exception_leaves_retrieval :
  (fst (retrieve_context Doubles.env_populated "checkout" initial)
   = Py.Ok (Py.cat [ "Merchants ask for UPI."; Py.nl; Py.nl;
                     "Refunds are slow." ])
   /\ Py.cat [ "Merchants ask for UPI."; Py.nl; Py.nl; "Refunds are slow." ]
      <> EmptyString)
  /\ fst (retrieve_context Doubles.env_query_down "checkout" initial)
     = Py.Raise Doubles.store_down
  /\ exists report w',
       run_feature_test Doubles.env_query_down "Azure-gpt-4"
         "Checkout Redesign: one-page mobile checkout" (Some CHECKOUT) None
         Doubles.both_personas "Azure-gpt-4" initial = (Py.Ok report, w')
       /\ test_results report = []
       /\ filter known [ "internet_first_entrepreneur";
                         "hybrid_emerging_business" ]
          = [ "internet_first_entrepreneur"; "hybrid_emerging_business" ].
Proof.
  split; [split; [vm_compute; reflexivity|cbv; discriminate]|].
  split; [vm_compute; reflexivity|].
  eexists _, _. split; [vm_compute; reflexivity|]. split; reflexivity.
Qed.

End Retrieval.

(** ** The retry decorator *)

Section Retry.
Import retry_logic.
Local Open Scope Q_scope.

Lemma py_max_spec (a b : Q) :
  (a < b /\ py_max a b = b) \/ (b <= a /\ py_max a b = a).
Proof.
  unfold py_max, Qltb. destruct (Qle_bool b a) eqn:E; cbn.
  - right. split; [now apply Qle_bool_iff|reflexivity].
  - left. split; [|reflexivity]. apply Qnot_le_lt. intro H.
    apply Qle_bool_iff in H. congruence.
Qed.

Lemma py_min_spec (a b : Q) :
  (b < a /\ py_min a b = b) \/ (a <= b /\ py_min a b = a).
Proof.
  unfold py_min, Qltb. destruct (Qle_bool a b) eqn:E; cbn.
  - right. split; [now apply Qle_bool_iff|reflexivity].
  - left. split; [|reflexivity]. apply Qnot_le_lt. intro H.
    apply Qle_bool_iff in H. congruence.
Qed.

Lemma py_min_Qmin (a b : Q) : py_min a b == Qmin a b.
Proof.
  destruct (py_min_spec a b) as [[L ->]|[L ->]].
  - symmetry. apply Q.min_r. now apply Qlt_le_weak.
  - symmetry. now apply Q.min_l.
Qed.

Lemma py_max_Qmax (a b : Q) : py_max a b == Qmax a b.
Proof.
  destruct (py_max_spec a b) as [[L ->]|[L ->]].
  - symmetry. apply Q.max_r. now apply Qlt_le_weak.
  - symmetry. now apply Q.max_l.
Qed.

(** *** The wait time of an error text is not negative *)

Lemma int_of_decimals_nonneg (ds : list N) : (0 <= Py.int_of_decimals ds)%Z.
Proof.
  unfold Py.int_of_decimals.
  assert (G : forall acc, (0 <= acc)%Z ->
            (0 <= fold_left (fun acc d => (10 * acc + Z.of_N d)%Z) ds acc)%Z).
  { induction ds as [|d ds IH]; intros acc H; [exact H|].
    cbn [fold_left]. apply IH. lia. }
  apply G. lia.
Qed.

Lemma wait_time_nonneg (error_str : string) : 0 <= wait_time error_str.
Proof.
  unfold wait_time.
  destruct (search_retry_after _) as [ds|]; [|discriminate].
  pose proof (@int_of_decimals_nonneg ds) as H.
  unfold Qle. cbn. lia.
Qed.

(** *** The schedule *)

(** The delay that the loop has reached after [k] retries is the
    scheduled one. *)
Lemma delay_after (p : params) (k : nat) :
  Nat.iter k (next_delay p) (initial_delay p) == schedule_delay p k.
Proof.
  induction k as [|k IH]; [reflexivity|].
  rewrite Nat.iter_succ. cbn [schedule_delay].
  set (d := Nat.iter k (next_delay p) (initial_delay p)) in *.
  unfold next_delay. rewrite py_min_Qmin.
  assert (DB : d * backoff_factor p
               == schedule_delay p k * backoff_factor p)
    by (rewrite IH; reflexivity).
  destruct (Q.min_spec (d * backoff_factor p) (max_delay p))
    as [[L E]|[L E]];
    destruct (Q.min_spec (schedule_delay p k * backoff_factor p)
                (max_delay p)) as [[L' E']|[L' E']];
    rewrite E, E'; lra.
Qed.

Lemma sleep_time_schedule (p : params) (error_str : string) (k : nat)
    (u : Q) :
  sleep_time p error_str (Nat.iter k (next_delay p) (initial_delay p)) u
  == schedule_sleep p error_str k u.
Proof.
  unfold sleep_time, schedule_sleep, jitter_amount.
  pose proof (delay_after p k) as D.
  set (d := Nat.iter k (next_delay p) (initial_delay p)) in *.
  set (w := wait_time error_str).
  rewrite py_min_Qmin.
  assert (J : d + d * jitter p * u
              == schedule_delay p k + schedule_delay p k * jitter p * u)
    by (rewrite D; reflexivity).
  pose proof (py_max_Qmax w (d + d * jitter p * u)) as X.
  destruct (Q.min_spec (py_max w (d + d * jitter p * u)) (max_delay p))
    as [[L F]|[L F]];
    destruct (Q.min_spec
                (Qmax w (schedule_delay p k
                         + schedule_delay p k * jitter p * u))
                (max_delay p)) as [[M F']|[M F']];
    destruct (Q.max_spec w (d + d * jitter p * u)) as [[N E]|[N E]];
    destruct (Q.max_spec w (schedule_delay p k
                            + schedule_delay p k * jitter p * u))
      as [[N' E']|[N' E']];
    rewrite F, F'; rewrite ?E' in *; rewrite ?E in *; lra.
Qed.

(** With a backoff factor between 0 and 1 the uncapped delay stays
    between the initial delay and 0. *)
Lemma uncapped_delay_shrinks (p : params) (k : nat) :
  0 <= backoff_factor p -> backoff_factor p <= 1 ->
  (0 <= initial_delay p ->
   0 <= uncapped_delay p k /\ uncapped_delay p k <= initial_delay p)
  /\ (initial_delay p <= 0 ->
      initial_delay p <= uncapped_delay p k /\ uncapped_delay p k <= 0).
Proof.
  intros B0 B1. induction k as [|k [IHp IHn]]; cbn [uncapped_delay].
  - split; intro H; split; lra.
  - split; intro H.
    + destruct (IHp H) as [L U]. split; nra.
    + destruct (IHn H) as [L U]. split; nra.
Qed.

(** The scheduled delay is the product of the initial delay and the
    backoff factors, capped, when the initial delay is not above the
    cap and the backoff factor is not negative. *)
Lemma schedule_delay_capped (p : params) :
  0 <= max_delay p -> initial_delay p <= max_delay p ->
  0 <= backoff_factor p ->
  forall k, schedule_delay p k == capped_delay p k.
Proof.
  intros M I B k. unfold capped_delay.
  induction k as [|k IH]; cbn [schedule_delay uncapped_delay].
  - symmetry. now apply Q.min_l.
  - set (x := uncapped_delay p k) in *.
    assert (DB : schedule_delay p k * backoff_factor p
                 == Qmin x (max_delay p) * backoff_factor p)
      by (rewrite IH; reflexivity).
    assert (S : backoff_factor p <= 1 -> x <= max_delay p).
    { intro B1.
      destruct (uncapped_delay_shrinks (p:=p) k B B1) as [P N].
      destruct (Qlt_le_dec (initial_delay p) 0) as [H|H].
      - destruct (N (Qlt_le_weak _ _ H)) as [_ U]. fold x in U. lra.
      - destruct (P H) as [_ U]. fold x in U. lra. }
    destruct (Qlt_le_dec 1 (backoff_factor p)) as [B1|B1].
    + destruct (Q.min_spec (schedule_delay p k * backoff_factor p)
                  (max_delay p)) as [[L E]|[L E]];
        destruct (Q.min_spec x (max_delay p)) as [[Lx Ex]|[Lx Ex]];
        destruct (Q.min_spec (x * backoff_factor p) (max_delay p))
          as [[Ly Ey]|[Ly Ey]];
        rewrite E, Ey; rewrite Ex in DB; nra.
    + specialize (S B1).
      destruct (Q.min_spec (schedule_delay p k * backoff_factor p)
                  (max_delay p)) as [[L E]|[L E]];
        destruct (Q.min_spec x (max_delay p)) as [[Lx Ex]|[Lx Ex]];
        destruct (Q.min_spec (x * backoff_factor p) (max_delay p))
          as [[Ly Ey]|[Ly Ey]];
        rewrite E, Ey; rewrite Ex in DB; nra.
Qed.

(** *** The loop *)

Lemma nth_error_map_seq (B : Type) (g : nat -> B) (n : nat) :
  forall a k, (k < n)%nat ->
    nth_error (map g (seq a n)) k = Some (g (a + k)%nat).
Proof.
  induction n as [|n IH]; intros a k H; [lia|].
  destruct k as [|k]; cbn.
  - now rewrite Nat.add_0_r.
  - rewrite IH by lia. now rewrite Nat.add_succ_r.
Qed.

Section Loop.
Variable A : Type.
Variable p : params.
Variable func : nat -> Py.res A.
Variable uniform : nat -> Q.

Hypothesis max_delay_nonneg : 0 <= max_delay p.

Lemma sleep_time_nonneg error_str delay u :
  Qltb (sleep_time p error_str delay u) 0 = false.
Proof.
  unfold Qltb. apply negb_false_iff, Qle_bool_iff.
  unfold sleep_time. pose proof (@wait_time_nonneg error_str) as W.
  destruct (py_min_spec
              (py_max (wait_time error_str)
                 (delay + jitter_amount p delay u)) (max_delay p))
    as [[_ ->]|[_ ->]]; [exact max_delay_nonneg|].
  destruct (py_max_spec (wait_time error_str)
              (delay + jitter_amount p delay u)) as [[L ->]|[_ ->]];
    [|exact W].
  apply Qlt_le_weak. eapply Qle_lt_trans; eassumption.
Qed.

(** The sleep that follows the attempt [i], made with the delay
    [delay]. *)
Definition sleep_after (i : nat) (delay : Q) : Q :=
  match func i with
  | Py.Raise e => sleep_time p (Py.exn_msg e) delay (uniform i)
  | Py.Ok _ => 0
  end.

(** From the attempt [retries] on, [n] retried attempts and one that
    is not: the loop sleeps after each of the former and ends as the
    latter does. *)
Lemma loop_run (n : nat) : forall fuel retries delay slept,
  (n < fuel)%nat ->
  (forall k, (k < n)%nat -> retried p func (retries + k) = true) ->
  retried p func (retries + n) = false ->
  loop p func uniform fuel retries delay slept
  = Some (rev slept
          ++ map (fun k => sleep_after (retries + k)
                             (Nat.iter k (next_delay p) delay))
               (seq 0 n),
          func (retries + n)%nat).
Proof.
  induction n as [|n IH]; intros fuel retries delay slept F R E;
    (destruct fuel as [|fuel]; [lia|]); cbn [loop].
  - rewrite Nat.add_0_r in *. cbn [seq map]. rewrite app_nil_r.
    unfold retried in E. destruct (func retries) as [v|e]; [reflexivity|].
    rewrite Z.geb_leb.
    destruct (Py.contains "429" (Py.exn_msg e)); cbn [andb negb] in *;
      [|now rewrite orb_true_r].
    apply Z.ltb_ge, Z.leb_le in E. now rewrite E.
  - pose proof (R 0%nat ltac:(lia)) as R0. rewrite Nat.add_0_r in R0.
    assert (S0 : sleep_after retries delay
                 = match func retries with
                   | Py.Raise e =>
                       sleep_time p (Py.exn_msg e) delay (uniform retries)
                   | Py.Ok _ => 0
                   end) by reflexivity.
    unfold retried in R0. destruct (func retries) as [v|e]; [discriminate|].
    apply andb_prop in R0. destruct R0 as [C L]. rewrite C.
    rewrite Z.geb_leb. apply Z.ltb_lt, Z.leb_gt in L. rewrite L.
    cbn [orb negb]. rewrite sleep_time_nonneg.
    rewrite (IH fuel (S retries)); [|lia| |].
    + cbn [rev]. rewrite <- app_assoc, Nat.add_succ_r. cbn [app Nat.add].
      do 2 f_equal. cbn [seq map]. rewrite <- seq_shift, map_map.
      rewrite Nat.add_0_r. change (Nat.iter 0 (next_delay p) delay) with delay.
      rewrite S0. do 2 f_equal. apply map_ext. intro k.
      rewrite Nat.add_succ_r. now rewrite Nat.iter_succ_r.
    + intros k K. cbn [Nat.add]. rewrite <- Nat.add_succ_r. apply R. lia.
    + cbn [Nat.add]. now rewrite <- Nat.add_succ_r.
Qed.

(** The same for a whole call. *)
Lemma wrapper_run (n : nat) :
  (forall k, (k < n)%nat -> retried p func k = true) ->
  retried p func n = false ->
  wrapper p func uniform (enough_fuel p)
  = Some (map (fun k => sleep_after k
                          (Nat.iter k (next_delay p) (initial_delay p)))
            (seq 0 n),
          func n).
Proof.
  intros R E. unfold wrapper.
  rewrite (@loop_run n (enough_fuel p) 0%nat (initial_delay p) []);
    [reflexivity| |exact R|exact E].
  unfold enough_fuel. destruct n as [|n]; [lia|].
  pose proof (R n ltac:(lia)) as H. unfold retried in H.
  destruct (func n) as [v|e]; [discriminate|].
  apply andb_prop in H. destruct H as [_ L]. apply Z.ltb_lt in L. lia.
Qed.


End Loop.

(** C5, as the code has it.  Take a decorated call whose [max_delay] is
    not negative, in which the first [n] attempts are retried (each
    raises a rate-limit error while a retry is left) and the attempt [n]
    is not.  The call sleeps exactly [n] times, once after each retried
    attempt and so at most [max_retries] times, and it ends as the
    attempt [n] does.  The sleep before the [k]-th retry is the larger
    of two values, capped at [max_delay]: the wait time of the error
    text, which is the number of seconds the text names after
    "retry after" and 60 seconds when it names none, and the scheduled
    delay with its jitter, the delay starting at [initial_delay] and
    being multiplied by [backoff_factor] and capped at [max_delay] at
    each retry.  So the wait time is used when it is at least the
    jittered delay, and the jittered delay otherwise.  When
    [initial_delay] is not above [max_delay] and [backoff_factor] is
    not negative, the scheduled delay is [initial_delay] multiplied by
    [backoff_factor] once per earlier retry, capped at [max_delay]. *)
Theorem retry_sleep_schedule (A : Type) (p : params)
    (func : nat -> Py.res A) (uniform : nat -> Q) (n : nat) :
  0 <= max_delay p ->
  (forall k, (k < n)%nat -> retried p func k = true) ->
  retried p func n = false ->
  exists sleeps,
    wrapper p func uniform (enough_fuel p) = Some (sleeps, func n)
    /\ length sleeps = n
    /\ (Z.of_nat (length sleeps) <= Z.max 0 (max_retries p))%Z
    /\ (forall k, (k < n)%nat ->
        exists e s,
          func k = Py.Raise e
          /\ Py.contains "429" (Py.exn_msg e) = true
          /\ nth_error sleeps k = Some s
          /\ s == schedule_sleep p (Py.exn_msg e) k (uniform k)
          /\ (search_retry_after (Py.lower (Py.exn_msg e)) = None ->
              wait_time (Py.exn_msg e) = 60)
          /\ (forall ds,
                 search_retry_after (Py.lower (Py.exn_msg e)) = Some ds ->
                 wait_time (Py.exn_msg e)
                 = inject_Z (Py.int_of_decimals ds))
          /\ (schedule_delay p k + schedule_delay p k * jitter p * uniform k
              <= wait_time (Py.exn_msg e) ->
              s == Qmin (wait_time (Py.exn_msg e)) (max_delay p))
          /\ (wait_time (Py.exn_msg e)
              <= schedule_delay p k
                 + schedule_delay p k * jitter p * uniform k ->
              s == Qmin (schedule_delay p k
                         + schedule_delay p k * jitter p * uniform k)
                     (max_delay p)))
    /\ (initial_delay p <= max_delay p -> 0 <= backoff_factor p ->
        forall k, schedule_delay p k == capped_delay p k).
Proof.
  intros M R E.
  exists (map (fun k => sleep_after p func uniform k
                          (Nat.iter k (next_delay p) (initial_delay p)))
            (seq 0 n)).
  split; [now apply wrapper_run|].
  assert (Len : length (map (fun k => sleep_after p func uniform k
                               (Nat.iter k (next_delay p) (initial_delay p)))
                          (seq 0 n)) = n)
    by (rewrite length_map; apply length_seq).
  split; [exact Len|]. split.
  { rewrite Len. destruct n as [|n]; [lia|].
    pose proof (R n ltac:(lia)) as H. unfold retried in H.
    destruct (func n) as [v|e]; [discriminate|].
    apply andb_prop in H. destruct H as [_ L]. apply Z.ltb_lt in L. lia. }
  split; [|intros I B; now apply schedule_delay_capped].
  intros k K. pose proof (R k K) as H. unfold retried in H.
  rewrite (@nth_error_map_seq _ _ n 0%nat k K). cbn [Nat.add].
  unfold sleep_after.
  destruct (func k) as [v|e]; [discriminate|].
  apply andb_prop in H. destruct H as [C _].
  exists e, (sleep_time p (Py.exn_msg e)
               (Nat.iter k (next_delay p) (initial_delay p)) (uniform k)).
  split; [reflexivity|]. split; [exact C|]. split; [reflexivity|].
  pose proof (sleep_time_schedule p (Py.exn_msg e) k (uniform k)) as S.
  split; [exact S|].
  split; [unfold wait_time; now intros ->|].
  split; [unfold wait_time; now intros ds ->|].
  rewrite S. unfold schedule_sleep. split; intro H.
  - now rewrite (Q.max_l _ _ H).
  - now rewrite (Q.max_r _ _ H).
Qed.

(** A function that is rate limited three times and then answers. *)
Definition three_failures (error_str : string) (k : nat) : Py.res nat :=
  if (k <? 3)%nat then Py.Raise (rate_limited error_str) else Py.Ok 7%nat.

(** With the default arguments the decorated [three_failures] sleeps
    three times, 60 seconds each, and returns the answer. *)
Lemma retry_sleep_schedule_witness :
  wrapper defaults (three_failures "Error 429: Too Many Requests")
    (fun _ => 1 # 2) (enough_fuel defaults)
  = Some ([60; 60; 60], Py.Ok 7%nat)
  /\ exists s0 s1 s2,
       wrapper defaults (three_failures "Error 429: Too Many Requests")
         (fun _ => 1 # 2) (enough_fuel defaults)
       = Some ([s0; s1; s2], Py.Ok 7%nat)
       /\ s0 == 60 /\ s1 == 60 /\ s2 == 60.
Proof.
  split; [vm_compute; reflexivity|].
  assert (M : 0 <= max_delay defaults) by discriminate.
  assert (R : forall k, (k < 3)%nat ->
            retried defaults
              (three_failures "Error 429: Too Many Requests") k = true).
  { intros k K. destruct k as [|[|[|k]]]; [reflexivity..|lia]. }
  assert (E : retried defaults
                (three_failures "Error 429: Too Many Requests") 3 = false)
    by reflexivity.
  destruct (@retry_sleep_schedule nat defaults
              (three_failures "Error 429: Too Many Requests")
              (fun _ => 1 # 2) 3%nat M R E)
    as (sleeps & W & L & _ & S & _).
  destruct sleeps as [|s0 [|s1 [|s2 [|s3 sleeps]]]]; try discriminate L.
  exists s0, s1, s2. split; [exact W|].
  assert (V : forall k s, (k < 3)%nat ->
            nth_error [s0; s1; s2] k = Some s -> s == 60).
  { intros k s K N. destruct (S k K) as (e & s' & F & _ & N' & Q & _).
    rewrite N in N'. injection N' as <-. rewrite Q.
    destruct k as [|[|[|k]]]; [| | |lia];
      injection F as <-; vm_compute; reflexivity. }
  repeat split.
  - apply (V 0%nat); [lia|reflexivity].
  - apply (V 1%nat); [lia|reflexivity].
  - apply (V 2%nat); [lia|reflexivity].
Defined.

(** With the default arguments and an error text that names no wait
    time, the first sleep is 60 seconds, far from the initial delay of 2
    seconds and its jitter of 0.2 seconds; and a wait time of 1 second
    named by the error text does not replace the computed delay of 2
    seconds. *)
Lemma first_sleep_is_sixty_seconds :
  (wrapper defaults
     (fun k => if (k <? 1)%nat
               then Py.Raise (rate_limited "Error 429: Too Many Requests")
               else Py.Ok 7%nat)
     (fun _ => 0) (enough_fuel defaults)
   = Some ([60], Py.Ok 7%nat)
   /\ ~ (initial_delay defaults - initial_delay defaults * jitter defaults
         <= 60
         <= initial_delay defaults + initial_delay defaults * jitter defaults))
  /\ exists s,
       wrapper defaults
         (fun k => if (k <? 1)%nat
                   then Py.Raise
                          (rate_limited "Error 429: retry after 1 seconds")
                   else Py.Ok 7%nat)
         (fun _ => 0) (enough_fuel defaults)
       = Some ([s], Py.Ok 7%nat)
       /\ s == 2 /\ ~ s == 1.
Proof.
  split; [split; [vm_compute; reflexivity|]|].
  - cbn. intros [_ H]. revert H. apply Qlt_not_le. reflexivity.
  - eexists. split; [vm_compute; reflexivity|]. split; [reflexivity|].
    discriminate.
Qed.

(** *** Why the schedule has its conditions *)



(** The delay is capped when it is multiplied, not before: an
    [initial_delay] of 100 seconds above a [max_delay] of 70 is used as
    it is for the first sleep, where a jitter of a tenth downwards and a
    wait time of 1 second give 70 seconds and not the 63 of a capped
    delay.  And a negative [backoff_factor] breaks the product form:
    with 1, -4 and a cap of 10 the delays are 1, -4, 10 and -40, where
    the capped product gives -64 for the last. *)
Lemma capped_delay_needs_its_conditions :
  (schedule_delay (mkParams 5 100 70 2 (1 # 10)) 0 == 100
   /\ capped_delay (mkParams 5 100 70 2 (1 # 10)) 0 == 70
   /\ exists s,
        wrapper (mkParams 5 100 70 2 (1 # 10))
          (fun k => if (k <? 1)%nat
                    then Py.Raise
                           (rate_limited "Error 429: retry after 1 seconds")
                    else Py.Ok 7%nat)
          (fun _ => - (1)) (enough_fuel (mkParams 5 100 70 2 (1 # 10)))
        = Some ([s], Py.Ok 7%nat)
        /\ s == 70
        /\ Qmin (Qmax 1 (70 + 70 * (1 # 10) * - (1))) 70 == 63)
  /\ schedule_delay (mkParams 5 1 10 (- (4)) (1 # 10)) 3 == - (40)
  /\ capped_delay (mkParams 5 1 10 (- (4)) (1 # 10)) 3 == - (64).
Proof.
  repeat split; try (vm_compute; reflexivity).
  eexists. split; [vm_compute; reflexivity|].
  split; vm_compute; reflexivity.
Qed.

End Retry.
(** ** More on the retry decorator *)

Section RetryOutcome.
Import retry_logic.
Local Open Scope Q_scope.













End RetryOutcome.
(** ** More on the vector-store manager *)

Section ChromaExtras.
Import Effects chroma_setup.



End ChromaExtras.
(** ** More on the feedback pipeline *)

Section PipelineExtras.
Import Effects test_merchant_feedback ux_principles.
Local Open Scope float_scope.



(** *** What every result of a run satisfies *)



Section OneRun.
Variable env : Env.
Variable MODEL_NAME : string.
Variables (client feature_text : string) (image_path : option string)
  (model_name context ux_principles : string).



End OneRun.


(** *** What every write to the store looks like *)





End PipelineExtras.
(** ** The entry points *)

Section EntryPoints.
Import Effects test_merchant_feedback ux_principles.

(** *** [extract_flow_type_from_text] *)



(** *** [test_merchant_feedback] *)


(** *** [main] *)








(** *** What [main] prints of a summary *)


End EntryPoints.
(** ** More on the UX principle catalogue *)

Section CatalogueExtras.
Import ux_principles.

(** *** The members of [FlowType] and their values *)


(** *** The grouping of [generate_prompt_context] *)

















End CatalogueExtras.
